(** * clipboard-ai: the daemon's session lifecycle, checked against its specification

    A shallow embedding of [src/daemon.py] (class [ClipboardAIDaemon]),
    [src/state.py] ([Message], [ConversationState], [StateManager]), the
    parts of [src/config.py] the daemon consults ([load_prompt],
    [list_prompts], [get], [load]) and the send, new and reset handlers of
    [src/client.py].

    Conventions of the embedding
    - Python objects mutated in place ([self.current_state], [self.chat], the
      files under [state/]) live in one record, [World], that every operation
      threads explicitly.
    - The text-generation provider is external.  It is a pair of oracles,
      [chats_create] and [respond], indexed by the number of handle creations
      and of calls made so far, so every finite behaviour of a real provider
      is some oracle.  The calls made and the sleeps taken are logged in the
      world so that statements can count them.
    - Instants are integers (seconds); [datetime.now()] reads [clock], which
      [time.sleep] and the environment advance.
    - Text is a string of code points below 256; [lower] and [strip] are
      [str.lower] and [str.strip] on that range.
    - Storage is reliable and the JSON on disk decodes: the [IOError] and
      [JSONDecodeError] branches of the source are not exercised.  A prompt
      file decodes to a dictionary.
    - The clipboard tools of the client work: [wl-paste] gives the text of
      the clipboard and [wl-copy] sets it. *)

From Stdlib Require Import ZArith QArith Ascii String Lia.
From stdpp Require Import gmap strings list fin_maps sorting.

Local Open Scope string_scope.
Local Open Scope Z_scope.
Local Open Scope list_scope.

(** ** Data model ([src/state.py]) *)

(** [Message]: the role is a plain [str] in the source (["user"] or
    ["model"] by convention only). *)
Record Message := mkMessage {
  role : string;
  content : string;
  timestamp : Z
}.

Record ConversationState := mkConversationState {
  active : bool;
  prompt_name : string;
  model : string;
  created_at : Z;
  last_activity : Z;
  messages : list Message
}.

(** The dictionary a prompt file decodes to: the keys that the program
    reads, each of which may be absent, and the names of the other keys of
    the file. *)
Record PromptConfig := mkPromptConfig {
  p_name : option string;
  p_first_message : option string;
  p_model : option string;
  p_temperature : option Q;
  p_thinking_enabled : option bool;
  p_other_keys : list string
}.

(** The entries of [Config.config] that the daemon reads. *)
Record Settings := mkSettings {
  default_model : string;
  conversation_timeout_hours : Z;
  max_retries : Z;
  retry_delay_seconds : Z
}.

(** [Config.DEFAULT_CONFIG] *)
Definition DEFAULT_CONFIG : Settings :=
  {| default_model := "gemini-2.5-flash";
     conversation_timeout_hours := 12;
     max_retries := 3;
     retry_delay_seconds := 2 |}.

(** What one [chat.send_message] call does: it returns a response with a
    text, or raises one of the classes the daemon's handlers distinguish.
    Every exception carries its [str(e)]. *)
Inductive Outcome :=
| Reply (text : string)
| ResourceExhausted (e : string)
| InternalError (e : string)
| InvalidArgument (e : string)
| OtherError (e : string).

Record Provider := mkProvider {
  chats_create : nat -> string -> bool;
  respond : nat -> string -> Outcome
}.

(** The live conversation handle held in [self.chat]. *)
Record Chat := mkChat {
  handle : nat;
  chat_model : string;
  chat_temperature : Q;
  thinking_budget : option Z
}.

(** JSON values of the status dictionary. *)
Inductive Value :=
| VBool (b : bool)
| VStr (s : string)
| VInt (n : Z)
| VMinute (m : Z).

Record World := mkWorld {
  (* environment *)
  clock : Z;
  prompts_dir : gmap string PromptConfig;
  config : Settings;
  current_state_file : option ConversationState;
  history_dir : gmap Z ConversationState;
  handles : nat;
  calls : list (nat * string);
  sleeps : list Z;
  socket_path_exists : bool;
  (* the daemon object *)
  socket_open : bool;
  running : bool;
  chat : option Chat;
  current_state : option ConversationState;
  daemon_last_activity : Z;
  timeout_hours : Z
}.

(** Field updates. *)
Definition set_clock (t : Z) (w : World) : World :=
  mkWorld t (prompts_dir w) (config w) (current_state_file w) (history_dir w)
    (handles w) (calls w) (sleeps w) (socket_path_exists w) (socket_open w)
    (running w) (chat w) (current_state w) (daemon_last_activity w)
    (timeout_hours w).

Definition set_current_state_file (f : option ConversationState) (w : World) : World :=
  mkWorld (clock w) (prompts_dir w) (config w) f (history_dir w)
    (handles w) (calls w) (sleeps w) (socket_path_exists w) (socket_open w)
    (running w) (chat w) (current_state w) (daemon_last_activity w)
    (timeout_hours w).

Definition set_history_dir (h : gmap Z ConversationState) (w : World) : World :=
  mkWorld (clock w) (prompts_dir w) (config w) (current_state_file w) h
    (handles w) (calls w) (sleeps w) (socket_path_exists w) (socket_open w)
    (running w) (chat w) (current_state w) (daemon_last_activity w)
    (timeout_hours w).

Definition set_handles (n : nat) (w : World) : World :=
  mkWorld (clock w) (prompts_dir w) (config w) (current_state_file w)
    (history_dir w) n (calls w) (sleeps w) (socket_path_exists w)
    (socket_open w) (running w) (chat w) (current_state w)
    (daemon_last_activity w) (timeout_hours w).

Definition set_calls (l : list (nat * string)) (w : World) : World :=
  mkWorld (clock w) (prompts_dir w) (config w) (current_state_file w)
    (history_dir w) (handles w) l (sleeps w) (socket_path_exists w)
    (socket_open w) (running w) (chat w) (current_state w)
    (daemon_last_activity w) (timeout_hours w).

Definition set_sleeps (l : list Z) (w : World) : World :=
  mkWorld (clock w) (prompts_dir w) (config w) (current_state_file w)
    (history_dir w) (handles w) (calls w) l (socket_path_exists w)
    (socket_open w) (running w) (chat w) (current_state w)
    (daemon_last_activity w) (timeout_hours w).

Definition set_socket_path_exists (b : bool) (w : World) : World :=
  mkWorld (clock w) (prompts_dir w) (config w) (current_state_file w)
    (history_dir w) (handles w) (calls w) (sleeps w) b
    (socket_open w) (running w) (chat w) (current_state w)
    (daemon_last_activity w) (timeout_hours w).

Definition set_socket_open (b : bool) (w : World) : World :=
  mkWorld (clock w) (prompts_dir w) (config w) (current_state_file w)
    (history_dir w) (handles w) (calls w) (sleeps w) (socket_path_exists w)
    b (running w) (chat w) (current_state w)
    (daemon_last_activity w) (timeout_hours w).

Definition set_running (b : bool) (w : World) : World :=
  mkWorld (clock w) (prompts_dir w) (config w) (current_state_file w)
    (history_dir w) (handles w) (calls w) (sleeps w) (socket_path_exists w)
    (socket_open w) b (chat w) (current_state w)
    (daemon_last_activity w) (timeout_hours w).

Definition set_chat (c : option Chat) (w : World) : World :=
  mkWorld (clock w) (prompts_dir w) (config w) (current_state_file w)
    (history_dir w) (handles w) (calls w) (sleeps w) (socket_path_exists w)
    (socket_open w) (running w) c (current_state w)
    (daemon_last_activity w) (timeout_hours w).

Definition set_current_state (s : option ConversationState) (w : World) : World :=
  mkWorld (clock w) (prompts_dir w) (config w) (current_state_file w)
    (history_dir w) (handles w) (calls w) (sleeps w) (socket_path_exists w)
    (socket_open w) (running w) (chat w) s
    (daemon_last_activity w) (timeout_hours w).

Definition set_daemon_last_activity (t : Z) (w : World) : World :=
  mkWorld (clock w) (prompts_dir w) (config w) (current_state_file w)
    (history_dir w) (handles w) (calls w) (sleeps w) (socket_path_exists w)
    (socket_open w) (running w) (chat w) (current_state w) t
    (timeout_hours w).

(** ** Results of an operation: a value, an exception that escapes it, or
    the [SystemExit] that [sys.exit] raises in the thread that runs the
    operation. *)
Inductive Result (A : Type) :=
| Ret (a : A)
| Raise (e : string)
| Exit (code : Z).
Arguments Ret {A} a.
Arguments Raise {A} e.
Arguments Exit {A} code.

Definition M (A : Type) : Type := World -> Result A * World.

Definition ret {A} (a : A) : M A := fun w => (Ret a, w).

Definition bind {A B} (m : M A) (k : A -> M B) : M B := fun w =>
  match m w with
  | (Ret a, w1) => k a w1
  | (Raise e, w1) => (Raise e, w1)
  | (Exit c, w1) => (Exit c, w1)
  end.

Notation "x <- m ;; k" := (bind m (fun x => k))
  (at level 100, m at next level, right associativity).
Notation "m ;;; k" := (bind m (fun _ => k))
  (at level 100, right associativity).

(** ** Text helpers *)

(** [str.lower] on one code point below 256: the upper-case letters are
    A to Z (65 to 90) and U+00C0 to U+00DE without the multiplication sign
    U+00D7; the lower-case form of each is 32 further. *)
Definition lower_char (c : ascii) : ascii :=
  let n := nat_of_ascii c in
  if ((65 <=? n)%nat && (n <=? 90)%nat)
     || ((192 <=? n)%nat && (n <=? 222)%nat && negb (n =? 215)%nat)
  then ascii_of_nat (n + 32) else c.

Fixpoint lower (s : string) : string :=
  match s with
  | EmptyString => EmptyString
  | String c s' => String (lower_char c) (lower s')
  end.

(** The code points below 256 that [str.strip] removes ([str.isspace]):
    tab, LF, VT, FF, CR, FS, GS, RS, US, space, NEL (U+0085) and the
    no-break space (U+00A0). *)
Definition is_space (c : ascii) : bool :=
  let n := nat_of_ascii c in
  ((9 <=? n)%nat && (n <=? 13)%nat) || ((28 <=? n)%nat && (n <=? 32)%nat)
  || (n =? 133)%nat || (n =? 160)%nat.

Fixpoint lstrip (s : string) : string :=
  match s with
  | EmptyString => EmptyString
  | String c s' => if is_space c then lstrip s' else s
  end.

Fixpoint rstrip (s : string) : string :=
  match s with
  | EmptyString => EmptyString
  | String c s' =>
      match rstrip s' with
      | EmptyString => if is_space c then EmptyString else String c EmptyString
      | r => String c r
      end
  end.

Definition strip (s : string) : string := rstrip (lstrip s).

(** [str.startswith] *)
Definition startswith (s p : string) : bool := String.prefix p s.

(** [range(n)] *)
Definition range (n : Z) : list Z := map Z.of_nat (seq 0 (Z.to_nat n)).

(** ** Config ([src/config.py]) *)

(** [Config.load_prompt]: the decoded content of [prompts/<name>.json], or
    [None] when there is no such file.  File names are matched exactly, as
    on the Linux file systems the program targets. *)
Definition load_prompt (prompt_name : string) (w : World) : option PromptConfig :=
  prompts_dir w !! prompt_name.

Definition str_le (a b : string) : Prop := String.leb a b = true.

#[local] Instance str_le_dec (a b : string) : Decision (str_le a b).
Proof. unfold str_le. apply _. Defined.

(** [Config.list_prompts]: the stems of the prompt files, sorted. *)
Definition list_prompts (w : World) : list string :=
  merge_sort str_le (map fst (map_to_list (prompts_dir w))).

(** Truth value of a loaded prompt ([if not prompt_config]): [None] and the
    empty dictionary are false, a dictionary with any key is true. *)
Definition prompt_truthy (p : option PromptConfig) : bool :=
  match p with
  | None => false
  | Some pc =>
      match p_name pc, p_first_message pc, p_model pc, p_temperature pc,
            p_thinking_enabled pc, p_other_keys pc with
      | None, None, None, None, None, [] => false
      | _, _, _, _, _, _ => true
      end
  end.

(** [prompt_config.get(key, default)] on the prompt fetched by the fallback
    call, which is [None] when even [default.json] is missing: the attribute
    lookup then raises. *)
Definition with_prompt {A} (p : option PromptConfig) (k : PromptConfig -> M A) : M A :=
  match p with
  | Some pc => k pc
  | None => fun w => (Raise "'NoneType' object has no attribute 'get'", w)
  end.

(** ** ConversationState and StateManager ([src/state.py]) *)

(** [ConversationState.add_message] at instant [now]. *)
Definition add_message (role content : string) (now : Z)
    (s : ConversationState) : ConversationState :=
  {| active := active s;
     prompt_name := prompt_name s;
     model := model s;
     created_at := created_at s;
     last_activity := now;
     messages := messages s ++ [mkMessage role content now] |}.

(** [ConversationState.is_expired] at instant [now]. *)
Definition is_expired (timeout_hours now : Z) (s : ConversationState) : bool :=
  3600 * timeout_hours <? now - last_activity s.

Definition get_message_count (s : ConversationState) : Z :=
  Z.of_nat (length (messages s)).

(** [StateManager.load_current] *)
Definition load_current (w : World) : option ConversationState :=
  current_state_file w.

(** [StateManager.save_current] *)
Definition save_current (s : ConversationState) (w : World) : World :=
  set_current_state_file (Some s) w.

(** [StateManager.create_new] *)
Definition create_new (prompt_name model : string) (w : World) : ConversationState :=
  {| active := true;
     prompt_name := prompt_name;
     model := model;
     created_at := clock w;
     last_activity := clock w;
     messages := [] |}.

Definition mark_inactive (s : ConversationState) : ConversationState :=
  {| active := false;
     prompt_name := prompt_name s;
     model := model s;
     created_at := created_at s;
     last_activity := last_activity s;
     messages := messages s |}.

(** [StateManager.archive_current]: the archive file is named after the
    current second, so a second archive within the same second overwrites. *)
Definition archive_current (w : World) : bool * World :=
  match load_current w with
  | None => (false, w)
  | Some state =>
      (true,
       set_current_state_file None
         (set_history_dir (<[clock w := mark_inactive state]> (history_dir w)) w))
  end.

(** [StateManager.list_history]: newest first. *)
Definition list_history (w : World) : list Z :=
  reverse (merge_sort Z.le (map fst (map_to_list (history_dir w)))).

(** [StateManager.get_status] *)
Definition get_status (w : World) : gmap string Value :=
  match load_current w with
  | None =>
      <["active" := VBool false]>
        (<["message" := VStr "No active conversation"]> ∅)
  | Some state =>
      <["active" := VBool true]>
      (<["prompt_name" := VStr (prompt_name state)]>
      (<["model" := VStr (model state)]>
      (<["created_at" := VMinute (created_at state / 60)]>
      (<["last_activity" := VMinute (last_activity state / 60)]>
      (<["message_count" := VInt (get_message_count state)]>
      (<["history_count" := VInt (Z.of_nat (length (list_history w)))]> ∅))))))
  end.

(** ** The daemon ([src/daemon.py]) *)

Section Daemon.

Variable P : Provider.

(** [self.chat.send_message(text)]: the call is logged with the handle it
    goes through, and its outcome is the provider's answer to the call with
    this sequence number.  With no handle the attribute lookup raises an
    [AttributeError], an exception of no class the handlers single out. *)
Definition chat_send_message (text : string) (w : World) : Outcome * World :=
  match chat w with
  | Some c =>
      (respond P (length (calls w)) text,
       set_calls (calls w ++ [(handle c, text)]) w)
  | None =>
      (OtherError "'NoneType' object has no attribute 'send_message'", w)
  end.

(** [time.sleep(delay)]; a negative delay raises [ValueError]. *)
Definition sleep (delay : Z) : M unit := fun w =>
  if delay <? 0 then (Raise "sleep length must be non-negative", w)
  else (Ret tt, set_clock (clock w + delay) (set_sleeps (sleeps w ++ [delay]) w)).

(** [ClipboardAIDaemon.create_chat] *)
Definition create_chat (model : string) (temperature : Q)
    (thinking_enabled : bool) (w : World) : bool * World :=
  let w1 := set_handles (S (handles w)) w in
  if chats_create P (handles w) model then
    (true,
     set_chat (Some {| handle := handles w;
                       chat_model := model;
                       chat_temperature := temperature;
                       thinking_budget :=
                         if negb thinking_enabled then Some 0 else None |}) w1)
  else (false, w1).

(** [self.current_state.add_message(role, content)]: the state object is
    mutated in place. *)
Definition current_add_message (role content : string) (w : World) : World :=
  set_current_state (add_message role content (clock w) <$> current_state w) w.

(** [self.state_manager.save_current(self.current_state)] *)
Definition current_save (w : World) : World :=
  match current_state w with
  | Some s => save_current s w
  | None => w
  end.

(** The four statements both successful exchanges end with: append the two
    messages, save, touch [self.last_activity]. *)
Definition record_exchange (sent reply : string) (w : World) : World :=
  let w1 := current_add_message "user" sent w in
  let w2 := current_add_message "model" reply w1 in
  let w3 := current_save w2 in
  set_daemon_last_activity (clock w3) w3.

(** [ClipboardAIDaemon.start_new_conversation] *)
Definition start_new_conversation (prompt_name : string) : M string := fun w =>
  let found := prompt_truthy (load_prompt prompt_name w) in
  let prompt_name := if found then prompt_name else "default" in
  let prompt_config :=
    if found then load_prompt prompt_name w else load_prompt "default" w in
  with_prompt prompt_config (fun pc w =>
    let model := default (default_model (config w)) (p_model pc) in
    let temperature := default (7 # 10)%Q (p_temperature pc) in
    let thinking_enabled := default false (p_thinking_enabled pc) in
    let first_message := default "" (p_first_message pc) in
    match create_chat model temperature thinking_enabled w with
    | (false, w1) => (Ret "Error: Failed to create chat", w1)
    | (true, w1) =>
        let w2 := set_current_state (Some (create_new prompt_name model w1)) w1 in
        match chat_send_message first_message w2 with
        | (Reply response_text, w3) =>
            (Ret response_text, record_exchange first_message response_text w3)
        | (ResourceExhausted _, w3) =>
            (Ret "Error: Rate limit exceeded. Try again in a moment.", w3)
        | (InvalidArgument e, w3) =>
            (Ret ("Error: Invalid request - " +:+ e), w3)
        | (InternalError e, w3) | (OtherError e, w3) =>
            (Ret ("Error: " +:+ e), w3)
        end
    end) w.

(** The body of the [for attempt in range(max_retries)] loop of
    [send_message], over the attempts that remain. *)
Fixpoint send_attempts (content : string)
    (max_retries retry_delay : Z) (attempts : list Z) : M string := fun w =>
  match attempts with
  | [] => (Ret "Error: Max retries exceeded", w)
  | attempt :: rest =>
      match chat_send_message content w with
      | (Reply response_text, w1) =>
          (Ret response_text, record_exchange content response_text w1)
      | (ResourceExhausted _, w1) =>
          if attempt <? max_retries - 1 then
            (sleep (retry_delay * 2 ^ attempt) ;;;
             send_attempts content max_retries retry_delay rest) w1
          else (Ret "Error: Rate limit exceeded after retries", w1)
      | (InternalError _, w1) =>
          if attempt <? max_retries - 1 then
            (sleep retry_delay ;;;
             send_attempts content max_retries retry_delay rest) w1
          else (Ret "Error: Server error after retries", w1)
      | (InvalidArgument e, w1) =>
          (Ret ("Error: Invalid request - " +:+ e), w1)
      | (OtherError e, w1) =>
          (Ret ("Error: " +:+ e), w1)
      end
  end.

(** [ClipboardAIDaemon.send_message] *)
Definition send_message (content : string) : M string := fun w =>
  match chat w, current_state w with
  | Some _, Some _ =>
      let max_retries := max_retries (config w) in
      let retry_delay := retry_delay_seconds (config w) in
      send_attempts content max_retries retry_delay (range max_retries) w
  | _, _ => (Ret "Error: No active conversation", w)
  end.

(** The [for msg in state.messages] loop of
    [check_and_resume_conversation]: user messages are sent again, the
    replies are dropped, and the first exception ends the loop with [False]. *)
Fixpoint replay (msgs : list Message) (w : World) : bool * World :=
  match msgs with
  | [] => (true, w)
  | msg :: rest =>
      if String.eqb (role msg) "user" then
        match chat_send_message (content msg) w with
        | (Reply _, w1) => replay rest w1
        | (_, w1) => (false, w1)
        end
      else replay rest w
  end.

(** [ClipboardAIDaemon.check_and_resume_conversation] *)
Definition check_and_resume_conversation : M bool := fun w =>
  match load_current w with
  | None => (Ret false, w)
  | Some state =>
      if is_expired (timeout_hours w) (clock w) state then
        (Ret false, snd (archive_current w))
      else
        let prompt_config :=
          if prompt_truthy (load_prompt (prompt_name state) w)
          then load_prompt (prompt_name state) w
          else load_prompt "default" w in
        with_prompt prompt_config (fun pc w =>
          let model := model state in
          let temperature := default (7 # 10)%Q (p_temperature pc) in
          let thinking_enabled := default false (p_thinking_enabled pc) in
          match create_chat model temperature thinking_enabled w with
          | (false, w1) => (Ret false, w1)
          | (true, w1) =>
              match replay (messages state) w1 with
              | (false, w2) => (Ret false, w2)
              | (true, w2) =>
                  (Ret true,
                   set_daemon_last_activity (clock w2)
                     (set_current_state (Some state) w2))
              end
          end) w
  end.

(** [ClipboardAIDaemon.shutdown] *)
Definition shutdown : M unit := fun w =>
  let w1 := set_running false w in
  let w2 := if socket_open w1 then set_socket_open false w1 else w1 in
  let w3 := if socket_path_exists w2 then set_socket_path_exists false w2 else w2 in
  (Exit 0, w3).

(** [ClipboardAIDaemon.check_timeout] *)
Definition check_timeout : M unit := fun w =>
  match current_state w with
  | Some _ =>
      let idle_time := clock w - daemon_last_activity w in
      if 3600 * timeout_hours w <? idle_time then
        shutdown (snd (archive_current w))
      else (Ret tt, w)
  | None => (Ret tt, w)
  end.

(** A decoded request, [{"action": ..., "content": ...}]; both keys are
    optional. *)
Record Request := mkRequest {
  action : option string;
  req_content : option string
}.

(** A response, [{"status": ..., "message": ...}] or
    [{"status": ..., "data": ...}]. *)
Record Response := mkResponse {
  status : string;
  message : option string;
  data : option (gmap string Value)
}.

(** The routing of the ["send"] action in [handle_client]. *)
Definition route_send (content : string) : M string := fun w =>
  match current_state w with
  | None =>
      let content_clean := lower (strip content) in
      let available_prompts := map lower (list_prompts w) in
      if bool_decide (content_clean ∈ available_prompts) then
        start_new_conversation content_clean w
      else
        (result <- start_new_conversation "default" ;;
         if negb (startswith result "Error:") then send_message content
         else ret result) w
  | Some _ => send_message content w
  end.

(** The ["new"] action of [handle_client]. *)
Definition force_new (w : World) : World :=
  let w1 := match current_state w with
            | Some _ => snd (archive_current w)
            | None => w
            end in
  set_chat None (set_current_state None w1).

(** The ["status"] action of [handle_client]. *)
Definition status_data (w : World) : gmap string Value :=
  let status := get_status w in
  match current_state w with
  | Some _ => <["timeout_hours" := VInt (timeout_hours w)]> status
  | None => status
  end.

(** [action == name], where [action] is [request.get("action")]. *)
Definition action_is (request : Request) (name : string) : bool :=
  match action request with
  | Some a => String.eqb a name
  | None => false
  end.

(** [ClipboardAIDaemon.handle_client] on a request that decoded: the
    response the handler passes to [sendall], and the daemon afterwards.  An
    exception that escapes the dispatch is answered with its text.  The
    write to the socket itself, which can fail in the source, is the
    client's side of the exchange ([send_to_daemon]). *)
Definition handle_client (request : Request) (w : World) : Result Response * World :=
  if action_is request "send" then
    match route_send (default "" (req_content request)) w with
    | (Ret result, w1) => (Ret (mkResponse "success" (Some result) None), w1)
    | (Raise e, w1) => (Ret (mkResponse "error" (Some e) None), w1)
    | (Exit c, w1) => (Exit c, w1)
    end
  else if action_is request "new" then
    (Ret (mkResponse "success"
            (Some "Conversation reset. Next message will start fresh.") None),
     force_new w)
  else if action_is request "status" then
    (Ret (mkResponse "success" None (Some (status_data w))), w)
  else if action_is request "ping" then
    (Ret (mkResponse "success" (Some "pong") None), w)
  else (Ret (mkResponse "error" (Some "Unknown action") None), w).

End Daemon.

(** [ClipboardAIDaemon.__init__] at instant [now], over the given files. *)
Definition new_daemon (now : Z) (prompts : gmap string PromptConfig)
    (cfg : Settings) (current : option ConversationState)
    (history : gmap Z ConversationState) : World :=
  {| clock := now;
     prompts_dir := prompts;
     config := cfg;
     current_state_file := current;
     history_dir := history;
     handles := 0;
     calls := [];
     sleeps := [];
     socket_path_exists := false;
     socket_open := false;
     running := false;
     chat := None;
     current_state := None;
     daemon_last_activity := now;
     timeout_hours := conversation_timeout_hours cfg |}.

(** ** Specification-side definitions *)

(** The session as the daemon and the store hold it. *)
Record session_untouched (w w' : World) : Prop := {
  su_state : current_state w' = current_state w;
  su_file : current_state_file w' = current_state_file w;
  su_activity : daemon_last_activity w' = daemon_last_activity w;
  su_chat : chat w' = chat w;
  su_history : history_dir w' = history_dir w;
  su_config : config w' = config w
}.


(** The operation returned a failure text: a string that starts with
    ["Error:"]. *)
Definition failure_text (r : Result string) : Prop :=
  exists text, r = Ret text /\ startswith text "Error:" = true.

(** The failures the specification calls transient. *)
Definition transient (o : Outcome) : bool :=
  match o with
  | ResourceExhausted _ | InternalError _ => true
  | _ => false
  end.

(** The pause after a failed attempt: exponential after a rate limit,
    constant after a server error. *)
Definition backoff (retry_delay attempt : Z) (o : Outcome) : Z :=
  match o with
  | ResourceExhausted _ => retry_delay * 2 ^ attempt
  | _ => retry_delay
  end.

(** What the operation returns when the attempt with outcome [o] is its
    last one. *)
Definition final_result (o : Outcome) : Result string :=
  match o with
  | Reply text => Ret text
  | ResourceExhausted _ => Ret "Error: Rate limit exceeded after retries"
  | InternalError _ => Ret "Error: Server error after retries"
  | InvalidArgument e => Ret ("Error: Invalid request - " +:+ e)
  | OtherError e => Ret ("Error: " +:+ e)
  end.

(** The profile a name resolves to, with the fallback to ["default"]
    (specification 4.4.1). *)
Definition resolve_profile (name : string) (w : World) : string * option PromptConfig :=
  if prompt_truthy (load_prompt name w) then (name, load_prompt name w)
  else ("default", load_prompt "default" w).

(** What the bootstrap returns on each outcome of its one provider call. *)
Definition bootstrap_result (o : Outcome) : Result string :=
  match o with
  | Reply text => Ret text
  | ResourceExhausted _ =>
      Ret "Error: Rate limit exceeded. Try again in a moment."
  | InvalidArgument e => Ret ("Error: Invalid request - " +:+ e)
  | InternalError e | OtherError e => Ret ("Error: " +:+ e)
  end.

(** The handle [create_chat] builds for a profile. *)
Definition profile_chat (h : nat) (model : string) (pc : PromptConfig) : Chat :=
  {| handle := h;
     chat_model := model;
     chat_temperature := default (7 # 10)%Q (p_temperature pc);
     thinking_budget :=
       if negb (default false (p_thinking_enabled pc)) then Some 0 else None |}.

(** The contents of the user-role messages of a log, in stored order. *)
Definition user_texts (msgs : list Message) : list string :=
  map content (List.filter (fun msg => String.eqb (role msg) "user") msgs).

(** Every text of the list, sent in order starting at call number [n], is
    answered with a reply. *)
Definition all_answered (P : Provider) (n : nat) (texts : list string) : Prop :=
  forall i text, texts !! i = Some text ->
    exists reply, respond P (n + i) text = Reply reply.

(** The instant at which the sweep acts: a session is current and the
    daemon has been idle for longer than the timeout. *)
Definition sweep_due (w : World) : Prop :=
  is_Some (current_state w) /\
  3600 * timeout_hours w < clock w - daemon_last_activity w.

(** Logs built from the empty log by appending a user message followed by
    a model message. *)
Inductive paired : list Message -> Prop :=
| paired_nil : paired []
| paired_snoc msgs u m :
    paired msgs -> role u = "user" -> role m = "model" ->
    paired (msgs ++ [u; m]).

(** The current session, if any, has a paired log. *)
Definition session_paired (w : World) : Prop :=
  forall state, current_state w = Some state -> paired (messages state).

(** The operations that act on the session once the daemon is constructed. *)
Inductive Op :=
| OpStart (prompt_name : string)
| OpSend (content : string)
| OpRequest (request : Request)
| OpSweep
| OpWait (dt : Z).

Definition run_op (P : Provider) (o : Op) (w : World) : World :=
  match o with
  | OpStart prompt_name => snd (start_new_conversation P prompt_name w)
  | OpSend content => snd (send_message P content w)
  | OpRequest request => snd (handle_client P request w)
  | OpSweep => snd (check_timeout w)
  | OpWait dt => set_clock (clock w + dt) w
  end.

(** The states of a daemon constructed with no session and driven by these
    operations. *)
Inductive reachable (P : Provider) : World -> Prop :=
| reachable_new now prompts cfg current history :
    reachable P (new_daemon now prompts cfg current history)
| reachable_op w o : reachable P w -> reachable P (run_op P o w).

(** ** Statements of the specification that the code does not satisfy *)

(** The reading of C2 as written: after every transient failure, of either
    kind, the pause is [retry_delay * 2 ^ attempt]. *)
Definition exponential_backoff_after_every_transient_failure : Prop :=
  forall (P : Provider) content w (j : nat),
    is_Some (chat w) ->
    is_Some (current_state w) ->
    0 <= retry_delay_seconds (config w) ->
    Z.of_nat j < max_retries (config w) ->
    (forall i, (i < j)%nat ->
       transient (respond P (length (calls w) + i) content) = true) ->
    (exists t, respond P (length (calls w) + j) content = Reply t) ->
    sleeps (snd (send_message P content w)) =
      sleeps w ++
      map (fun a => retry_delay_seconds (config w) * 2 ^ a) (range (Z.of_nat j)).

(** The reading of C3 as written: a bootstrap whose first call is rate
    limited goes on to a second attempt when the settings allow more than
    one. *)
Definition bootstrap_is_retried : Prop :=
  forall (P : Provider) name w h text e,
    1 < max_retries (config w) ->
    respond P (length (calls w)) text = ResourceExhausted e ->
    calls (snd (start_new_conversation P name w)) <> calls w ++ [(h, text)].



(** The reading of C7 as written: with no current session the status also
    carries the number of archived records. *)
Definition status_counts_history_without_session : Prop :=
  forall w,
    current_state w = None ->
    load_current w = None ->
    status_data w !! "history_count" =
      Some (VInt (Z.of_nat (size (history_dir w)))).

(** The reading of C8 as written: a due sweep ends in the state a forced
    reset ends in, and returns to the sweeper. *)
Definition sweep_acts_as_forced_reset : Prop :=
  forall w, sweep_due w -> check_timeout w = (Ret tt, force_new w).

(** The reading of C8 as written on the instant that is compared: the sweep
    acts as soon as the current session's own [last_activity] is older than
    the timeout. *)
Definition sweep_follows_session_last_activity : Prop :=
  forall w state,
    current_state w = Some state ->
    is_expired (timeout_hours w) (clock w) state = true ->
    fst (check_timeout w) <> Ret tt.

(** ** Concrete environments *)

(** [Config.DEFAULT_PROMPT], the content of [prompts/default.json] that
    [Config._ensure_structure] writes. *)
Definition DEFAULT_PROMPT : PromptConfig :=
  {| p_name := Some "default";
     p_first_message := Some
"You are an AI assistant running through clipboard-ai, a clipboard-based interface on Linux. Here's how you work:

- The user copies text to their clipboard and presses a keybind
- You receive that text and respond
- Your response is automatically copied back to their clipboard
- They can paste your response anywhere
- Conversations continue until 12 hours of inactivity

Important guidelines:
- Be concise and direct - your responses go straight to the clipboard
- Format your responses to be immediately useful when pasted
- Use markdown sparingly (only when it adds clarity)
- If the user's input is unclear, ask for clarification
- Remember context from previous messages in this conversation
- You cannot see files, images, or anything except the text they copy

Respond with ONLY: 'Ready. Paste your query.'";
     p_model := Some "gemini-2.5-flash";
     p_temperature := Some (7 # 10)%Q;
     p_thinking_enabled := Some false;
     p_other_keys := [] |}.

(** The environment of a first run: only [default.json], default settings,
    no state on disk. *)
Definition first_run (now : Z) : World :=
  new_daemon now {[ "default" := DEFAULT_PROMPT ]} DEFAULT_CONFIG None ∅.

(** A provider that always creates the handle and answers the calls with
    the listed outcomes, then with ["ok"]. *)
Definition scripted (script : list Outcome) : Provider :=
  {| chats_create := fun _ _ => true;
     respond := fun k _ => default (Reply "ok") (script !! k) |}.

(** A provider that bootstraps, fails twice with a server error, then
    replies. *)
Definition two_server_errors : Provider :=
  scripted [Reply "Ready."; InternalError "500"; InternalError "500"; Reply "hi"].

(** A provider that bootstraps, is rate limited twice, then replies. *)
Definition two_rate_limits : Provider :=
  scripted [Reply "Ready."; ResourceExhausted "429"; ResourceExhausted "429";
            Reply "hi"].


(** The daemon of a first run after a successful bootstrap. *)
Definition bootstrapped (P : Provider) : World :=
  snd (start_new_conversation P "default" (first_run 0)).

(** A provider that is rate limited once, then replies. *)
Definition rate_limited_once : Provider :=
  scripted [ResourceExhausted "429"; Reply "Ready."].

(** A provider whose bootstrap reply starts with ["Error:"]. *)
Definition replies_error_text : Provider :=
  scripted [Reply "Error: is what I will call my replies."; Reply "hi"].

(** A profile stored as [prompts/Coder.json]. *)
Definition coder_profile : PromptConfig :=
  {| p_name := Some "Coder";
     p_first_message := Some "You are a coding assistant. Answer with code only.";
     p_model := Some "gemini-2.5-pro";
     p_temperature := Some (2 # 10)%Q;
     p_thinking_enabled := Some true;
     p_other_keys := [] |}.

(** A fresh daemon whose prompt directory holds [default.json] and
    [Coder.json]. *)
Definition with_coder (now : Z) : World :=
  new_daemon now
    (<["Coder" := coder_profile]> {[ "default" := DEFAULT_PROMPT ]})
    DEFAULT_CONFIG None ∅.

(** An archived conversation. *)
Definition archived_session (t : Z) : ConversationState :=
  {| active := false; prompt_name := "default"; model := "gemini-2.5-flash";
     created_at := t; last_activity := t + 5;
     messages := [mkMessage "user" "hello" t; mkMessage "model" "hi" (t + 5)] |}.

(** A fresh daemon with no current session and two archived ones. *)
Definition two_archived : World :=
  new_daemon 100 {[ "default" := DEFAULT_PROMPT ]} DEFAULT_CONFIG None
    (<[10 := archived_session 10]> {[ 50 := archived_session 50 ]}).

(** What [run] does once the session is restored: the socket is bound and
    the loop flag set. *)
Definition serving (w : World) : World :=
  set_running true (set_socket_open true (set_socket_path_exists true w)).

(** The daemon of a first run, bootstrapped, serving, thirteen hours after
    its last activity. *)
Definition idle_daemon : World :=
  let w := serving (bootstrapped (scripted [Reply "Ready."])) in
  set_clock (clock w + 13 * 3600) w.

(** A persisted session with two exchanges. *)
Definition saved_session : ConversationState :=
  {| active := true; prompt_name := "default"; model := "gemini-2.5-flash";
     created_at := 0; last_activity := 40;
     messages := [mkMessage "user" "Say ready." 0; mkMessage "model" "Ready." 1;
                  mkMessage "user" "hello" 39; mkMessage "model" "hi" 40] |}.

(** A daemon started one hour after that session was last active. *)
Definition restarted : World :=
  new_daemon 3640 {[ "default" := DEFAULT_PROMPT ]} DEFAULT_CONFIG
    (Some saved_session) ∅.


(** A provider that bootstraps and is rate limited from then on. *)
Definition rate_limited_after_bootstrap : Provider :=
  scripted [Reply "Ready."; ResourceExhausted "429"; ResourceExhausted "429";
            ResourceExhausted "429"].



(** The restarted daemon, its session resumed, eleven and a half hours
    later: the session was last active twelve and a half hours ago. *)
Definition resumed_idle : World :=
  let w := snd (check_and_resume_conversation (scripted []) restarted) in
  set_clock (clock w + 41400) w.

(** A first run that received ["hello"]: the bootstrap, then the message. *)
Definition after_hello : World :=
  run_op (scripted []) (OpRequest (mkRequest (Some "send") (Some "hello")))
    (first_run 0).

(** ** The rest of StateManager ([src/state.py]) *)

(** [StateManager.load_history]: the archive written at the given second. *)
Definition load_history (filename : Z) (w : World) : option ConversationState :=
  history_dir w !! filename.

(** [history_file.unlink()] *)
Definition unlink_history (w : World) (filename : Z) : World :=
  set_history_dir (delete filename (history_dir w)) w.

(** [StateManager.clear_all] *)
Definition clear_all (w : World) : bool * World :=
  let w1 := match current_state_file w with
            | Some _ => set_current_state_file None w
            | None => w
            end in
  (true, fold_left unlink_history (list_history w1) w1).

(** ** Serialization ([Message.to_dict], [ConversationState.to_dict] and
    their [from_dict]) *)

(** The JSON scalars of the files.  [JTime] is the string that holds the
    ISO text of an instant. *)
Inductive Scalar :=
| JNull
| JBool (b : bool)
| JNum (n : Z)
| JStr (s : string)
| JTime (t : Z).

(** The values of the top-level dictionary: a scalar, or the list of
    message dictionaries. *)
Inductive Field :=
| FScalar (v : Scalar)
| FMessages (l : list (gmap string Scalar)).

(** [Message.to_dict] *)
Definition Message_to_dict (m : Message) : gmap string Scalar :=
  <["role" := JStr (role m)]>
  (<["content" := JStr (content m)]>
  (<["timestamp" := JTime (timestamp m)]> ∅)).

(** A message as [Message.from_dict] builds it.  The dataclass checks no
    type: each field holds whatever value the dictionary gives for it. *)
Record RawMessage := mkRawMessage {
  raw_role : Scalar;
  raw_content : Scalar;
  raw_timestamp : Scalar
}.

(** [Message.from_dict], the constructor applied to the dictionary's keys
    followed by [__post_init__], at instant [now].  The constructor raises
    [TypeError], here [None], on a missing [role] or [content] and on any key
    that is not a field.  The values are stored as they are; a missing or
    null [timestamp] becomes [now]. *)
Definition Message_from_dict (now : Z) (data : gmap string Scalar) : option RawMessage :=
  if bool_decide (dom data ⊆ ({["role"; "content"; "timestamp"]} : gset string)) then
    match data !! "role", data !! "content" with
    | Some r, Some c =>
        Some {| raw_role := r;
                raw_content := c;
                raw_timestamp :=
                  match data !! "timestamp" with
                  | None | Some JNull => JTime now
                  | Some t => t
                  end |}
    | _, _ => None
    end
  else None.

(** The message as the record [Message] of this embedding, whose role and
    content are text and whose timestamp is an instant; a message with a
    value of another type in a field has no such form. *)
Definition typed_message (m : RawMessage) : option Message :=
  match raw_role m, raw_content m, raw_timestamp m with
  | JStr r, JStr c, JTime t => Some (mkMessage r c t)
  | _, _, _ => None
  end.

(** [ConversationState.to_dict] *)
Definition to_dict (s : ConversationState) : gmap string Field :=
  <["active" := FScalar (JBool (active s))]>
  (<["prompt_name" := FScalar (JStr (prompt_name s))]>
  (<["model" := FScalar (JStr (model s))]>
  (<["created_at" := FScalar (JTime (created_at s))]>
  (<["last_activity" := FScalar (JTime (last_activity s))]>
  (<["messages" := FMessages (map Message_to_dict (messages s))]> ∅))))).

(** [[Message.from_dict(msg) for msg in ...]], with the messages in their
    typed form: the first message that raises ends the comprehension. *)
Fixpoint messages_from_dicts (now : Z) (l : list (gmap string Scalar)) : option (list Message) :=
  match l with
  | [] => Some []
  | d :: rest =>
      match Message_from_dict now d ≫= typed_message,
            messages_from_dicts now rest with
      | Some m, Some ms => Some (m :: ms)
      | _, _ => None
      end
  end.

(** [ConversationState.from_dict] at instant [now]: every key has a
    default.  The result is the state in its typed form; [None] stands for
    the [TypeError] of a message, and for a state with a value of a type
    other than the one its field declares, which has no typed form. *)
Definition from_dict (now : Z) (data : gmap string Field) : option ConversationState :=
  match default (FMessages []) (data !! "messages") with
  | FScalar _ => None
  | FMessages l =>
      match messages_from_dicts now l,
            default (FScalar (JBool true)) (data !! "active"),
            default (FScalar (JStr "default")) (data !! "prompt_name"),
            default (FScalar (JStr "gemini-2.5-flash")) (data !! "model"),
            default (FScalar (JTime now)) (data !! "created_at"),
            default (FScalar (JTime now)) (data !! "last_activity") with
      | Some msgs, FScalar (JBool a), FScalar (JStr p), FScalar (JStr m),
        FScalar (JTime c), FScalar (JTime l) =>
          Some (mkConversationState a p m c l msgs)
      | _, _, _, _, _, _ => None
      end
  end.

(** ** The rest of Config ([src/config.py]) *)

(** The loop body of [Config.get_all_prompts]. *)
Definition add_prompt (w : World) (prompts : gmap string PromptConfig)
    (prompt_name : string) : gmap string PromptConfig :=
  match load_prompt prompt_name w with
  | Some prompt_config =>
      if prompt_truthy (Some prompt_config)
      then <[prompt_name := prompt_config]> prompts
      else prompts
  | None => prompts
  end.

(** [Config.get_all_prompts] *)
Definition get_all_prompts (w : World) : gmap string PromptConfig :=
  fold_left (add_prompt w) (list_prompts w) ∅.




(** ** What a request leaves alone *)

(** The parts of the world that no send touches: the prompt files, the
    settings, the archives, the timeout and the serving state. *)
Record store_frame (w w' : World) : Prop := {
  sf_prompts : prompts_dir w' = prompts_dir w;
  sf_config : config w' = config w;
  sf_history : history_dir w' = history_dir w;
  sf_timeout : timeout_hours w' = timeout_hours w;
  sf_running : running w' = running w;
  sf_socket_open : socket_open w' = socket_open w;
  sf_socket_path : socket_path_exists w' = socket_path_exists w
}.

(** The passing of [dt] seconds. *)
Definition wait (dt : Z) (w : World) : World := set_clock (clock w + dt) w.

(** ** The client ([src/client.py]) *)

(** How one exchange over the socket goes, apart from its timing.
    - [Whole]: the connection is made, the daemon's one [recv(4096)] gets
      the whole request and the client's one [recv(8192)] the whole reply.
    - [RequestCut e]: the daemon's [recv] gets only a part of the request,
      which does not decode; [e] is the message of the daemon's error
      response, ["Invalid JSON"] for a [JSONDecodeError].
    - [ReplyCut e]: the client's [recv] gets only a part of the reply;
      [e] is the text of the exception its decoding raises.
    - [Refused]: [connect] raises [ConnectionRefusedError], as it does on
      a socket file that no process listens on.
    - [ConnectFails e]: [connect] raises another exception, with text [e].
    - [TimedOut]: the request is sent and, for a reason other than the
      daemon's own sleeps, no reply arrives within the 30 seconds of the
      client's timeout. *)
Inductive Link :=
| Whole
| RequestCut (e : string)
| ReplyCut (e : string)
| Refused
| ConnectFails (e : string)
| TimedOut.

(** What the client process holds and is given: the API key of its
    [Config], whether a daemon it spawns comes up within five seconds, the
    text on the clipboard, how its exchange with the daemon goes, and
    whether the daemon's write of a reply that comes after the client's
    timeout fails (it does once the client has closed the connection). *)
Record Client := mkClient {
  api_key : string;
  spawn_ok : bool;
  clipboard : string;
  link : Link;
  late_write_fails : bool
}.

(** [Config.is_configured] *)
Definition is_configured (cl : Client) : bool :=
  negb (String.eqb (api_key cl) "").

(** [ClipboardAIClient.set_clipboard] *)
Definition set_clipboard (text : string) (cl : Client) : Client :=
  mkClient (api_key cl) (spawn_ok cl) text (link cl) (late_write_fails cl).

(** [ClipboardAIClient.is_daemon_running] *)
Definition is_daemon_running (w : World) : bool := socket_path_exists w.

(** [ClipboardAIClient.handle_reset] on the answer typed at its prompt:
    the exit code and the disk afterwards. *)
Definition handle_reset (confirm : string) (w : World) : Z * World :=
  if negb (String.eqb (lower (strip confirm)) "yes") then (0, w)
  else
    match clear_all w with
    | (true, w1) => (0, w1)
    | (false, w1) => (1, w1)
    end.

Section ClientSide.

Variable P : Provider.

(** [ClipboardAIDaemon.run] from its start to the accept loop, for a
    configured key: the session is restored, the socket bound.  An
    exception of the restore ends the process before the socket exists. *)
Definition startup (w : World) : World :=
  match check_and_resume_conversation P w with
  | (Ret _, w1) => serving w1
  | (_, w1) => w1
  end.

(** [ClipboardAIClient.start_daemon] *)
Definition start_daemon (cl : Client) (w : World) : bool * World :=
  if is_daemon_running w then (true, w)
  else if spawn_ok cl then
    let w1 := startup w in (is_daemon_running w1, w1)
  else (false, w).

(** The daemon process after an exception has left [run]: the process has
    ended and its socket is closed with it; the socket file stays. *)
Definition ended (w : World) : World := set_socket_open false w.

(** [ClipboardAIClient.send_to_daemon]: the response the client returns,
    and the daemon afterwards.  The client waits 30 seconds for the reply,
    so a daemon whose retries sleep that long answers too late.  A reply
    that comes too late is written to a connection the client may have
    closed: [sendall] then raises, again inside the handler of that
    exception, and the exception leaves [run].  A daemon that exits without
    answering closes the connection, and decoding the empty reply raises. *)
Definition send_to_daemon (cl : Client) (action content : string) (w : World) : Response * World :=
  let '(r, w1) := handle_client P (mkRequest (Some action) (Some content)) w in
  let too_late :=
    (mkResponse "error" (Some "Request timed out") None,
     if late_write_fails cl then ended w1 else w1) in
  match link cl with
  | Whole =>
      if 30 <=? clock w1 - clock w then too_late
      else
        match r with
        | Ret response => (response, w1)
        | _ =>
            (mkResponse "error" (Some "Expecting value: line 1 column 1 (char 0)")
               None,
             w1)
        end
  | RequestCut e => (mkResponse "error" (Some e) None, w)
  | ReplyCut e =>
      if 30 <=? clock w1 - clock w then too_late
      else (mkResponse "error" (Some e) None, w1)
  | Refused => (mkResponse "error" (Some "Daemon not responding") None, w)
  | ConnectFails e => (mkResponse "error" (Some e) None, w)
  | TimedOut => too_late
  end.

(** The end both [handle_send] and [handle_new] share: the message goes to
    the clipboard, prefixed on an error response; a response without
    [message] raises [KeyError]. *)
Definition deliver (response : Response) (cl : Client) : Result Z * Client :=
  match message response with
  | None => (Raise "'message'", cl)
  | Some text =>
      if String.eqb (status response) "success"
      then (Ret 0, set_clipboard text cl)
      else (Ret 1, set_clipboard ("Error: " +:+ text) cl)
  end.

(** [ClipboardAIClient.handle_send]: the exit code, the client and the
    daemon afterwards. *)
Definition handle_send (cl : Client) (w : World) : Result Z * Client * World :=
  if negb (is_configured cl) then
    (Ret 1,
     set_clipboard "Error: API key not configured. Please run: clipboard-ai --setup" cl,
     w)
  else
    match start_daemon cl w with
    | (false, w1) => (Ret 1, set_clipboard "Error: Failed to start daemon" cl, w1)
    | (true, w1) =>
        let content := clipboard cl in
        if String.eqb content "" then
          (Ret 1, set_clipboard "Error: Clipboard is empty" cl, w1)
        else
          let '(response, w2) := send_to_daemon cl "send" content w1 in
          (deliver response cl, w2)
    end.

(** [ClipboardAIClient.handle_new] *)
Definition handle_new (cl : Client) (w : World) : Result Z * Client * World :=
  if negb (is_daemon_running w) then
    (Ret 0, set_clipboard "No active conversation to reset" cl, w)
  else
    let '(response, w1) := send_to_daemon cl "new" "" w in
    (deliver response cl, w1).

End ClientSide.

(** * Theorems *)

(** ** Basic facts about the primitives *)

Section Facts.

Variable P : Provider.



Lemma chat_send_message_active c text w :
  chat w = Some c ->
  chat_send_message P text w =
    (respond P (length (calls w)) text,
     set_calls (calls w ++ [(handle c, text)]) w).
Proof. intros H. unfold chat_send_message. by rewrite H. Qed.

Lemma chat_send_message_untouched text w :
  session_untouched w (snd (chat_send_message P text w)).
Proof. unfold chat_send_message. destruct (chat w); by split. Qed.

Lemma sleep_ok delay w :
  0 <= delay ->
  sleep delay w =
    (Ret tt, set_clock (clock w + delay) (set_sleeps (sleeps w ++ [delay]) w)).
Proof. intros H. unfold sleep. destruct (Z.ltb_spec delay 0); [lia | done]. Qed.

Lemma sleep_untouched delay w : session_untouched w (snd (sleep delay w)).
Proof. unfold sleep. destruct (delay <? 0); by split. Qed.

Lemma sleep_calls delay w : calls (snd (sleep delay w)) = calls w.
Proof. unfold sleep. by destruct (delay <? 0). Qed.




Lemma backoff_nonneg retry_delay attempt :
  0 <= retry_delay -> 0 <= attempt -> 0 <= retry_delay * 2 ^ attempt.
Proof. intros. apply Z.mul_nonneg_nonneg; [done | by apply Z.pow_nonneg]. Qed.


End Facts.

Section Retry.

Variable P : Provider.

Lemma record_exchange_calls sent reply w :
  calls (record_exchange sent reply w) = calls w.
Proof.
  unfold record_exchange, current_save, current_add_message. simpl.
  by destruct (current_state w).
Qed.

Lemma record_exchange_sleeps sent reply w :
  sleeps (record_exchange sent reply w) = sleeps w.
Proof.
  unfold record_exchange, current_save, current_add_message. simpl.
  by destruct (current_state w).
Qed.

(** [j] transient failures, then a last attempt: the loop started at attempt
    [a] with [m] attempts left makes [j + 1] calls and sleeps [j] times. *)
Lemma send_attempts_retries content mr rd c : forall (j a m : nat) w,
  chat w = Some c ->
  0 <= rd ->
  Z.of_nat (a + m) = mr ->
  (j < m)%nat ->
  (forall i, (i < j)%nat ->
     transient (respond P (length (calls w) + i) content) = true) ->
  transient (respond P (length (calls w) + j) content) = false \/ S j = m ->
  exists w',
    send_attempts P content mr rd (map Z.of_nat (seq a m)) w =
      (final_result (respond P (length (calls w) + j) content), w') /\
    calls w' = calls w ++ replicate (S j) (handle c, content) /\
    sleeps w' = sleeps w ++
      map (fun i => backoff rd (Z.of_nat (a + i))
                      (respond P (length (calls w) + i) content)) (seq 0 j).
Proof.
  induction j as [|j IH]; intros a m w Hc Hrd Hmr Hjm Htr Hlast.
  - destruct m as [|m]; [lia|]. simpl seq. simpl map.
    cbn [send_attempts]. rewrite (chat_send_message_active P c) by done.
    rewrite Nat.add_0_r in *.
    assert (Hend : (Z.of_nat a <? mr - 1) = true -> S 0 = S m -> False).
    { intros H%Z.ltb_lt. lia. }
    destruct (respond P (length (calls w)) content) as [t|e|e|e|e] eqn:Hr;
      simpl in Hlast.
    + eexists. split; [done|].
      rewrite record_exchange_calls, record_exchange_sleeps. simpl.
      by rewrite app_nil_r.
    + destruct Hlast as [|Hlast]; [done|].
      destruct (Z.of_nat a <? mr - 1) eqn:Hlt; [by destruct Hend|].
      eexists. split; [done|]. simpl. by rewrite app_nil_r.
    + destruct Hlast as [|Hlast]; [done|].
      destruct (Z.of_nat a <? mr - 1) eqn:Hlt; [by destruct Hend|].
      eexists. split; [done|]. simpl. by rewrite app_nil_r.
    + eexists. split; [done|]. simpl. by rewrite app_nil_r.
    + eexists. split; [done|]. simpl. by rewrite app_nil_r.
  - destruct m as [|m]; [lia|]. simpl seq. simpl map.
    cbn [send_attempts]. rewrite (chat_send_message_active P c) by done.
    pose proof (Htr 0%nat ltac:(lia)) as H0. rewrite Nat.add_0_r in H0.
    set (w1 := set_calls _ w).
    assert (Hlt : (Z.of_nat a <? mr - 1) = true) by (apply Z.ltb_lt; lia).
    assert (Hstep : forall delay, 0 <= delay ->
      delay = backoff rd (Z.of_nat a) (respond P (length (calls w)) content) ->
      exists w',
        (sleep delay ;;;
         send_attempts P content mr rd (map Z.of_nat (seq (S a) m))) w1 =
          (final_result (respond P (length (calls w) + S j) content), w') /\
        calls w' = calls w ++ replicate (S (S j)) (handle c, content) /\
        sleeps w' = sleeps w ++
          map (fun i => backoff rd (Z.of_nat (a + i))
                          (respond P (length (calls w) + i) content))
              (seq 0 (S j))).
    { intros delay Hd Hdelay. unfold bind. rewrite sleep_ok by done.
      set (w2 := set_clock _ _).
      assert (Hlen : length (calls w2) = S (length (calls w))).
      { subst w2 w1. simpl. rewrite length_app. simpl. lia. }
      destruct (IH (S a) m w2) as (w' & Hrun & Hcalls & Hsleeps);
        [done | done | lia | lia | | | ].
      - intros i Hi. rewrite Hlen.
        replace (S (length (calls w)) + i)%nat
          with (length (calls w) + S i)%nat by lia.
        apply Htr. lia.
      - rewrite Hlen.
        replace (S (length (calls w)) + j)%nat
          with (length (calls w) + S j)%nat by lia.
        destruct Hlast; [by left | right; lia].
      - rewrite Hlen in Hrun, Hsleeps.
        replace (S (length (calls w)) + j)%nat
          with (length (calls w) + S j)%nat in Hrun by lia.
        exists w'. split; [done|]. split.
        + rewrite Hcalls. subst w2 w1. simpl. by rewrite <- app_assoc.
        + rewrite Hsleeps. subst w2 w1. simpl. rewrite <- app_assoc.
          f_equal. simpl. rewrite !Nat.add_0_r, <- Hdelay. f_equal.
          rewrite <- seq_shift, map_map. apply List.map_ext. intros i.
          by rewrite !Nat.add_succ_r. }
    destruct (respond P (length (calls w)) content) as [t|e|e|e|e] eqn:Hr;
      try discriminate H0; rewrite Hlt.
    + apply Hstep; [apply backoff_nonneg; lia | done].
    + apply Hstep; [done | done].
Qed.

End Retry.

(** ** Send message: failure leaves no trace, and the retry policy *)

Section SendMessage.

Variable P : Provider.



End SendMessage.




(** C2 (the code at the failing input).  With the default settings (three
    attempts, base delay 2s) a send answered by two server errors and then
    a reply sleeps 2s and 2s, not 2s and 4s: the pause after a server error
    does not grow with the attempt, so the exponential backoff of the
    specification does not hold after a server error. *)
Lemma server_error_backoff_is_constant :
  (let r := send_message two_server_errors "hello"
              (bootstrapped two_server_errors) in
   fst r = Ret "hi" /\
   length (calls (snd r)) = 4%nat /\
   sleeps (snd r) = [2; 2]) /\
  ~ exponential_backoff_after_every_transient_failure.
Proof.
  split; [by vm_compute|].
  intros H.
  specialize (H two_server_errors "hello" (bootstrapped two_server_errors) 2%nat).
  assert (Hs : [2; 2] = [2; 4]); [|discriminate Hs].
  apply H.
  - vm_compute. eauto.
  - vm_compute. eauto.
  - vm_compute. discriminate.
  - vm_compute. reflexivity.
  - intros i Hi. destruct i as [|[|i]]; [reflexivity | reflexivity | lia].
  - by exists "hi".
Qed.

(** ** Start new conversation *)

Section StartNewConversation.

Variable P : Provider.

(** One run of [start_new_conversation] whose profile resolves and whose
    handle is created: a single provider call, no sleep, and the session
    state installed before the call stays installed whatever the outcome. *)
Lemma start_new_conversation_created name w pname pc :
  resolve_profile name w = (pname, Some pc) ->
  let model := default (default_model (config w)) (p_model pc) in
  let first := default "" (p_first_message pc) in
  chats_create P (handles w) model = true ->
  let o := respond P (length (calls w)) first in
  let fresh := create_new pname model w in
  exists w',
    start_new_conversation P name w = (bootstrap_result o, w') /\
    calls w' = calls w ++ [(handles w, first)] /\
    sleeps w' = sleeps w /\
    chat w' = Some (profile_chat (handles w) model pc) /\
    current_state w' =
      Some (match o with
            | Reply text =>
                add_message "model" text (clock w)
                  (add_message "user" first (clock w) fresh)
            | _ => fresh
            end) /\
    current_state_file w' =
      match o with
      | Reply _ => current_state w'
      | _ => current_state_file w
      end.
Proof.
  intros Hres model first Hcreate o fresh.
  unfold start_new_conversation, resolve_profile in *.
  assert (Hpc : (if prompt_truthy (load_prompt name w)
                 then load_prompt
                        (if prompt_truthy (load_prompt name w)
                         then name else "default") w
                 else load_prompt "default" w) = Some pc
                /\ (if prompt_truthy (load_prompt name w)
                    then name else "default") = pname).
  { destruct (prompt_truthy (load_prompt name w)); by injection Hres as <- ->. }
  destruct Hpc as [-> ->]. simpl with_prompt.
  unfold create_chat. fold model first. rewrite Hcreate.
  unfold chat_send_message. simpl chat. simpl calls. fold o.
  destruct o as [t|e|e|e|e]; eexists; (split; [reflexivity|]);
    unfold record_exchange, current_save, current_add_message; simpl;
    done.
Qed.

(** C3 (as amended).  When the profile resolves and the handle is created,
    [start_new_conversation] sends the profile's first message exactly
    once, on the new handle, and never sleeps: there is no retry.  A rate
    limit on that one call returns its failure text at once. *)
Theorem start_new_conversation_sends_once name w pname pc :
  resolve_profile name w = (pname, Some pc) ->
  let model := default (default_model (config w)) (p_model pc) in
  let first := default "" (p_first_message pc) in
  chats_create P (handles w) model = true ->
  exists w',
    start_new_conversation P name w =
      (bootstrap_result (respond P (length (calls w)) first), w') /\
    calls w' = calls w ++ [(handles w, first)] /\
    sleeps w' = sleeps w /\
    (forall e, respond P (length (calls w)) first = ResourceExhausted e ->
       fst (start_new_conversation P name w) =
         Ret "Error: Rate limit exceeded. Try again in a moment.").
Proof.
  intros Hres model first Hcreate.
  destruct (start_new_conversation_created name w pname pc Hres Hcreate)
    as (w' & Hrun & Hcalls & Hsleeps & _).
  exists w'. repeat split; try done.
  intros e He. rewrite Hrun. simpl. fold model first. by rewrite He.
Qed.

End StartNewConversation.

(** A first run whose bootstrap call is rate limited. *)
Lemma start_new_conversation_sends_once_witness :
  let w := first_run 0 in
  let first := default "" (p_first_message DEFAULT_PROMPT) in
  (resolve_profile "default" w = ("default", Some DEFAULT_PROMPT) /\
   chats_create rate_limited_once (handles w) "gemini-2.5-flash" = true) /\
  exists w',
    start_new_conversation rate_limited_once "default" w =
      (bootstrap_result (respond rate_limited_once (length (calls w)) first), w') /\
    calls w' = calls w ++ [(handles w, first)] /\
    sleeps w' = sleeps w /\
    (forall e,
       respond rate_limited_once (length (calls w)) first = ResourceExhausted e ->
       fst (start_new_conversation rate_limited_once "default" w) =
         Ret "Error: Rate limit exceeded. Try again in a moment.").
Proof.
  intros w first.
  assert (Hres : resolve_profile "default" w = ("default", Some DEFAULT_PROMPT))
    by reflexivity.
  assert (Hcreate : chats_create rate_limited_once (handles w) "gemini-2.5-flash" = true)
    by reflexivity.
  split; [done|].
  exact (start_new_conversation_sends_once rate_limited_once "default" w
           "default" DEFAULT_PROMPT Hres Hcreate).
Defined.

(** C3 (counterexample).  On a first run with the default settings (three
    attempts allowed) and a provider that is rate limited once and would
    then reply, the bootstrap makes one call, never sleeps and returns the
    failure text. *)
Lemma bootstrap_rate_limit_not_retried :
  (let w' := snd (start_new_conversation rate_limited_once "default" (first_run 0)) in
   fst (start_new_conversation rate_limited_once "default" (first_run 0)) =
     Ret "Error: Rate limit exceeded. Try again in a moment." /\
   length (calls w') = 1%nat /\ sleeps w' = []) /\
  ~ bootstrap_is_retried.
Proof.
  split; [by vm_compute|].
  intros H.
  apply (H rate_limited_once "default" (first_run 0) 0%nat
           (default "" (p_first_message DEFAULT_PROMPT)) "429");
    [by vm_compute | reflexivity | reflexivity].
Qed.

(** C1 (the code at the failing input).  On a first run whose bootstrap
    call is rate limited, [start_new_conversation] returns the failure text
    but the daemon is left holding a session state with no message and a
    live handle, while nothing is on disk; the next ["send"] is therefore
    routed to [send_message] and forwarded on a handle that never received
    the profile's first message. *)
Theorem failed_bootstrap_leaves_session_installed :
  let w' := snd (start_new_conversation rate_limited_once "default" (first_run 0)) in
  fst (start_new_conversation rate_limited_once "default" (first_run 0)) =
    Ret "Error: Rate limit exceeded. Try again in a moment." /\
  current_state w' =
    Some {| active := true; prompt_name := "default";
            model := "gemini-2.5-flash"; created_at := 0;
            last_activity := 0; messages := [] |} /\
  chat w' = Some (profile_chat 0 "gemini-2.5-flash" DEFAULT_PROMPT) /\
  current_state_file w' = None /\
  fst (route_send rate_limited_once "default" w') = Ret "Ready." /\
  map snd (calls (snd (route_send rate_limited_once "default" w'))) =
    [default "" (p_first_message DEFAULT_PROMPT); "default"].
Proof. by vm_compute. Qed.

Section FailedBootstrap.

Variable P : Provider.

(** The same for every failed bootstrap: whenever the one provider call
    fails, the fresh state and the new handle stay installed. *)
Lemma start_new_conversation_failure_state name w pname pc :
  resolve_profile name w = (pname, Some pc) ->
  let model := default (default_model (config w)) (p_model pc) in
  let first := default "" (p_first_message pc) in
  chats_create P (handles w) model = true ->
  (forall text, respond P (length (calls w)) first <> Reply text) ->
  let w' := snd (start_new_conversation P name w) in
  failure_text (fst (start_new_conversation P name w)) /\
  current_state w' = Some (create_new pname model w) /\
  chat w' = Some (profile_chat (handles w) model pc) /\
  current_state_file w' = current_state_file w.
Proof.
  intros Hres model first Hcreate Hfail.
  destruct (start_new_conversation_created P name w pname pc Hres Hcreate)
    as (w' & Hrun & _ & _ & Hchat & Hst & Hfile).
  rewrite Hrun. simpl. fold model first in Hst, Hfile, Hchat |- *.
  destruct (respond P (length (calls w)) first) as [t|e|e|e|e];
    [by destruct (Hfail t) | | | |];
    (split; [by eexists | done]).
Qed.

End FailedBootstrap.

(** ** Routing of the send action *)

Section Routing.

Variable P : Provider.

(** With no current session and a content that names no profile, the route
    is the bootstrap of ["default"] followed, unless its result starts with
    ["Error:"], by the send of the content. *)
Lemma route_send_default content w :
  current_state w = None ->
  lower (strip content) ∉ map lower (list_prompts w) ->
  route_send P content w =
    match start_new_conversation P "default" w with
    | (Ret result, w1) =>
        if startswith result "Error:" then (Ret result, w1)
        else send_message P content w1
    | (Raise e, w1) => (Raise e, w1)
    | (Exit c, w1) => (Exit c, w1)
    end.
Proof.
  intros Hnone Hnot. unfold route_send. rewrite Hnone.
  rewrite bool_decide_eq_false_2 by done. unfold bind.
  destruct (start_new_conversation P "default" w) as [[result|e|c] w1]; try done.
  by destruct (startswith result "Error:").
Qed.

(** With no current session and a content that names a profile, the route
    is the bootstrap under the lowered, trimmed content and nothing else. *)
Lemma route_send_profile content w :
  current_state w = None ->
  lower (strip content) ∈ map lower (list_prompts w) ->
  route_send P content w = start_new_conversation P (lower (strip content)) w.
Proof.
  intros Hnone Hin. unfold route_send. rewrite Hnone.
  by rewrite bool_decide_eq_true_2.
Qed.

(** C10.  With no current session and a content that is not a profile
    name, whether the content is sent is decided by the prefix of the
    bootstrap's result alone.  So when the provider's bootstrap reply itself
    starts with ["Error:"], the bootstrap has succeeded (both messages are
    recorded and saved), the only provider call made is the bootstrap, and
    that reply is the message of the response written to the client. *)
Theorem bootstrap_reply_with_error_prefix_is_returned content w pc text :
  current_state w = None ->
  lower (strip content) ∉ map lower (list_prompts w) ->
  load_prompt "default" w = Some pc ->
  let model := default (default_model (config w)) (p_model pc) in
  let first := default "" (p_first_message pc) in
  chats_create P (handles w) model = true ->
  respond P (length (calls w)) first = Reply text ->
  startswith text "Error:" = true ->
  exists w',
    route_send P content w = (Ret text, w') /\
    handle_client P (mkRequest (Some "send") (Some content)) w =
      (Ret (mkResponse "success" (Some text) None), w') /\
    calls w' = calls w ++ [(handles w, first)] /\
    current_state w' =
      Some (add_message "model" text (clock w)
              (add_message "user" first (clock w)
                 (create_new "default" model w))) /\
    current_state_file w' = current_state w'.
Proof.
  intros Hnone Hnot Hdef model first Hcreate Hreply Hprefix.
  assert (Hres : resolve_profile "default" w = ("default", Some pc)).
  { unfold resolve_profile. rewrite Hdef. by destruct (prompt_truthy (Some pc)). }
  destruct (start_new_conversation_created P "default" w "default" pc Hres Hcreate)
    as (w' & Hrun & Hcalls & _ & _ & Hst & Hfile).
  fold model first in Hrun, Hcalls, Hst, Hfile.
  rewrite Hreply in Hrun, Hst, Hfile. simpl in Hrun.
  assert (Hroute : route_send P content w = (Ret text, w'))
    by by rewrite route_send_default, Hrun, Hprefix.
  exists w'. split; [done|]. split; [|done].
  unfold handle_client. simpl. by rewrite Hroute.
Qed.

(** When the lowered, trimmed content is itself the name of a prompt file,
    that profile is the one the conversation starts with. *)
Lemma route_send_selects_profile content w pc :
  current_state w = None ->
  lower (strip content) ∈ map lower (list_prompts w) ->
  load_prompt (lower (strip content)) w = Some pc ->
  prompt_truthy (Some pc) = true ->
  route_send P content w = start_new_conversation P (lower (strip content)) w /\
  resolve_profile (lower (strip content)) w = (lower (strip content), Some pc).
Proof.
  intros Hnone Hin Hload Htruthy. split; [by apply route_send_profile|].
  unfold resolve_profile. by rewrite Hload, Htruthy.
Qed.

End Routing.

(** A first run that receives ["hello"] and whose provider opens with a
    reply that starts with ["Error:"]. *)
Lemma bootstrap_reply_with_error_prefix_is_returned_witness :
  let w := first_run 0 in
  let text := "Error: is what I will call my replies." in
  let first := default "" (p_first_message DEFAULT_PROMPT) in
  (current_state w = None /\
   (lower (strip "hello") ∉ map lower (list_prompts w)) /\
   load_prompt "default" w = Some DEFAULT_PROMPT /\
   chats_create replies_error_text (handles w) "gemini-2.5-flash" = true /\
   respond replies_error_text (length (calls w)) first = Reply text /\
   startswith text "Error:" = true) /\
  exists w',
    route_send replies_error_text "hello" w = (Ret text, w') /\
    handle_client replies_error_text (mkRequest (Some "send") (Some "hello")) w =
      (Ret (mkResponse "success" (Some text) None), w') /\
    calls w' = calls w ++ [(handles w, first)] /\
    current_state w' =
      Some (add_message "model" text (clock w)
              (add_message "user" first (clock w)
                 (create_new "default" "gemini-2.5-flash" w))) /\
    current_state_file w' = current_state w'.
Proof.
  intros w text first.
  assert (H1 : current_state w = None) by reflexivity.
  assert (H2 : lower (strip "hello") ∉ map lower (list_prompts w)).
  { refine (bool_decide_eq_false_1 _ _). by vm_compute. }
  assert (H3 : load_prompt "default" w = Some DEFAULT_PROMPT) by reflexivity.
  assert (H4 : chats_create replies_error_text (handles w) "gemini-2.5-flash" = true)
    by reflexivity.
  assert (H5 : respond replies_error_text (length (calls w)) first = Reply text)
    by reflexivity.
  assert (H6 : startswith text "Error:" = true) by reflexivity.
  split; [done|].
  exact (bootstrap_reply_with_error_prefix_is_returned replies_error_text
           "hello" w DEFAULT_PROMPT text H1 H2 H3 H4 H5 H6).
Defined.

(** C6 (the code at the failing input).  [Coder] is a known profile and the
    content ["Coder"] matches it, trimmed and without regard to case; but
    the conversation is started under the lowered name ["coder"], no file
    has that name, and the daemon falls back to the default profile: its
    name, its model, its temperature and its first message are used, not
    those of [Coder].  The content itself is not forwarded. *)
Theorem capitalised_profile_name_starts_default :
  let w := with_coder 0 in
  let w' := snd (route_send (scripted []) "Coder" w) in
  current_state w = None /\
  load_prompt "Coder" w = Some coder_profile /\
  lower (strip "Coder") ∈ map lower (list_prompts w) /\
  prompt_name <$> current_state w' = Some "default" /\
  chat w' = Some (profile_chat 0 "gemini-2.5-flash" DEFAULT_PROMPT) /\
  calls w' = [(0%nat, default "" (p_first_message DEFAULT_PROMPT))].
Proof.
  intros w w'. split; [reflexivity|]. split; [reflexivity|]. split.
  - refine (bool_decide_eq_true_1 _ _). by vm_compute.
  - by vm_compute.
Qed.

(** ** Status and idle sweep *)

Lemma list_history_length w : length (list_history w) = size (history_dir w).
Proof.
  unfold list_history.
  rewrite length_reverse, (Permutation_length (merge_sort_Permutation _ _)).
  by rewrite length_map, length_map_to_list.
Qed.

(** With a persisted current session, the status carries [history_count],
    the number of archived records. *)
Lemma get_status_history_count w state :
  load_current w = Some state ->
  get_status w !! "history_count" =
    Some (VInt (Z.of_nat (size (history_dir w)))).
Proof.
  intros H. unfold get_status. rewrite H, list_history_length.
  by repeat (rewrite lookup_insert_ne by done); rewrite lookup_insert_eq.
Qed.

Section Status.

Variable P : Provider.

(** C7 (as amended).  A status query with no current session, in memory or
    on disk, is answered with exactly the two fields [active = false] and
    [message = "No active conversation"]; there is no [history_count]
    field in that answer. *)
Theorem status_without_session w :
  current_state w = None ->
  load_current w = None ->
  handle_client P (mkRequest (Some "status") None) w =
    (Ret (mkResponse "success" None
            (Some (<["active" := VBool false]>
                     (<["message" := VStr "No active conversation"]> ∅)))),
     w) /\
  status_data w !! "history_count" = None.
Proof.
  intros Hmem Hdisk. unfold handle_client, status_data, get_status. simpl.
  by rewrite Hmem, Hdisk.
Qed.

End Status.

(** A status query to a fresh daemon with two archived sessions. *)
Lemma status_without_session_witness :
  (current_state two_archived = None /\ load_current two_archived = None) /\
  handle_client (scripted []) (mkRequest (Some "status") None) two_archived =
    (Ret (mkResponse "success" None
            (Some (<["active" := VBool false]>
                     (<["message" := VStr "No active conversation"]> ∅)))),
     two_archived) /\
  status_data two_archived !! "history_count" = None.
Proof.
  split; [by split|].
  apply (status_without_session (scripted []) two_archived); reflexivity.
Defined.

(** C7 (counterexample).  With two archived records and no current session
    the status has no [history_count] field. *)
Lemma status_without_session_has_no_history_count :
  (size (history_dir two_archived) = 2%nat /\
   status_data two_archived !! "history_count" = None) /\
  ~ status_counts_history_without_session.
Proof.
  split; [by vm_compute|].
  intros H. specialize (H two_archived eq_refl eq_refl).
  vm_compute in H. discriminate H.
Qed.

(** C8 (as amended).  A sweep is due when a session is current and the
    daemon's own last-activity instant ([self.last_activity], not the
    [last_activity] of the session state) is more than [timeout_hours]
    hours old.  A due [check_timeout] archives the persisted record of the
    current session and then calls [shutdown]: [running] is cleared, the
    socket is closed and its path removed, and [sys.exit(0)] is raised in
    the caller.  The in-memory session state and the handle are not
    cleared. *)
Theorem check_timeout_archives_and_shuts_down w :
  sweep_due w ->
  exists w',
    check_timeout w = (Exit 0, w') /\
    current_state_file w' = None /\
    history_dir w' =
      match current_state_file w with
      | Some state => <[clock w := mark_inactive state]> (history_dir w)
      | None => history_dir w
      end /\
    current_state w' = current_state w /\
    chat w' = chat w /\
    running w' = false /\
    socket_open w' = false /\
    socket_path_exists w' = false.
Proof.
  intros [[st Hst] Hidle]. unfold check_timeout. rewrite Hst.
  apply Z.ltb_lt in Hidle. rewrite Hidle.
  unfold shutdown, archive_current, load_current. eexists. split; [done|].
  destruct (current_state_file w) as [f|] eqn:Hf; simpl;
    destruct (socket_open w) eqn:Ho; simpl;
    destruct (socket_path_exists w) eqn:Hp; simpl;
    by rewrite ?Hf, ?Ho, ?Hp.
Qed.

(** A sweep that is not due does nothing. *)
Lemma check_timeout_not_due w :
  ~ sweep_due w -> check_timeout w = (Ret tt, w).
Proof.
  intros Hnot. unfold check_timeout.
  destruct (current_state w) as [st|] eqn:Hst; [|done].
  destruct (Z.ltb_spec (3600 * timeout_hours w) (clock w - daemon_last_activity w));
    [|done].
  destruct Hnot. split; [by rewrite Hst | done].
Qed.

(** The sweep of [idle_daemon]. *)
Lemma check_timeout_archives_and_shuts_down_witness :
  sweep_due idle_daemon /\
  exists w',
    check_timeout idle_daemon = (Exit 0, w') /\
    current_state_file w' = None /\
    history_dir w' =
      match current_state_file idle_daemon with
      | Some state =>
          <[clock idle_daemon := mark_inactive state]> (history_dir idle_daemon)
      | None => history_dir idle_daemon
      end /\
    current_state w' = current_state idle_daemon /\
    chat w' = chat idle_daemon /\
    running w' = false /\
    socket_open w' = false /\
    socket_path_exists w' = false.
Proof.
  assert (Hdue : sweep_due idle_daemon).
  { split; [vm_compute; eauto | by vm_compute]. }
  split; [exact Hdue|].
  exact (check_timeout_archives_and_shuts_down idle_daemon Hdue).
Defined.

(** C8 (counterexample).  After thirteen idle hours the sweep ends in
    [sys.exit(0)] with the session state still installed and [running]
    cleared, where a forced reset leaves no session state and a running
    daemon.  And a resumed session whose own [last_activity] is twelve and
    a half hours old is not swept eleven and a half hours after the
    restart: the instant compared is the daemon's, not the session's. *)
Lemma idle_sweep_is_not_a_forced_reset :
  (sweep_due idle_daemon /\
   fst (check_timeout idle_daemon) = Exit 0 /\
   is_Some (current_state (snd (check_timeout idle_daemon))) /\
   running (snd (check_timeout idle_daemon)) = false /\
   current_state (force_new idle_daemon) = None /\
   running (force_new idle_daemon) = true) /\
  ~ sweep_acts_as_forced_reset /\
  (current_state resumed_idle = Some saved_session /\
   is_expired (timeout_hours resumed_idle) (clock resumed_idle) saved_session = true /\
   check_timeout resumed_idle = (Ret tt, resumed_idle)) /\
  ~ sweep_follows_session_last_activity.
Proof.
  assert (Hdue : sweep_due idle_daemon).
  { split; [vm_compute; eauto | by vm_compute]. }
  assert (Hst : current_state resumed_idle = Some saved_session) by by vm_compute.
  assert (Hexp : is_expired (timeout_hours resumed_idle) (clock resumed_idle)
                   saved_session = true) by by vm_compute.
  assert (Hrun : check_timeout resumed_idle = (Ret tt, resumed_idle)).
  { apply check_timeout_not_due. intros [_ Hidle]. vm_compute in Hidle.
    discriminate Hidle. }
  split; [|split; [|split]].
  - split; [exact Hdue|]. vm_compute. repeat split; eauto.
  - intros H. specialize (H idle_daemon Hdue). vm_compute in H. discriminate H.
  - done.
  - intros H. apply (H resumed_idle saved_session Hst Hexp). by rewrite Hrun.
Qed.

(** ** Resume on startup *)

Section Resume.

Variable P : Provider.

Lemma all_answered_cons n text texts :
  all_answered P n (text :: texts) <->
  (exists reply, respond P n text = Reply reply) /\ all_answered P (S n) texts.
Proof.
  unfold all_answered. split.
  - intros H. split.
    + specialize (H 0%nat text eq_refl). by rewrite Nat.add_0_r in H.
    + intros i t Hi. specialize (H (S i) t Hi).
      by rewrite Nat.add_succ_r in H.
  - intros [H0 H] [|i] t Hi.
    + injection Hi as <-. by rewrite Nat.add_0_r.
    + rewrite Nat.add_succ_r. by apply (H i t).
Qed.

(** The replay loop only adds provider calls: a prefix of the user texts,
    all of them exactly when every one is answered. *)
Lemma replay_calls msgs : forall w c,
  chat w = Some c ->
  exists (b : bool) (n : nat),
    replay P msgs w =
      (b, set_calls (calls w ++ map (pair (handle c)) (take n (user_texts msgs))) w) /\
    (b = true -> n = length (user_texts msgs)) /\
    (b = true <-> all_answered P (length (calls w)) (user_texts msgs)).
Proof.
  induction msgs as [|msg rest IH]; intros w c Hc.
  - exists true, 0%nat. simpl. rewrite app_nil_r. split; [by destruct w|].
    split; [done|]. split; [|done]. intros _ i t Hi. done.
  - simpl replay. unfold user_texts. simpl List.filter.
    destruct (String.eqb (role msg) "user") eqn:Hrole.
    + simpl map. fold (user_texts rest).
      rewrite (chat_send_message_active P c) by done.
      set (w1 := set_calls _ w).
      assert (Hlen : length (calls w1) = S (length (calls w))).
      { subst w1. simpl. rewrite length_app. simpl. lia. }
      destruct (respond P (length (calls w)) (content msg)) as [t|e|e|e|e] eqn:Hr.
      * destruct (IH w1 c Hc) as (b & n & Hrun & Hn & Hb).
        exists b, (S n). rewrite Hrun. split; [|split].
        -- f_equal. subst w1. simpl. by rewrite <- app_assoc.
        -- intros Hbt. simpl. by rewrite Hn.
        -- rewrite Hb, Hlen, all_answered_cons. split; [|tauto].
           intros H. split; [by exists t | done].
      * exists false, 1%nat. split; [done|]. split; [done|]. split; [done|].
        intros [[t Ht] _]%all_answered_cons. congruence.
      * exists false, 1%nat. split; [done|]. split; [done|]. split; [done|].
        intros [[t Ht] _]%all_answered_cons. congruence.
      * exists false, 1%nat. split; [done|]. split; [done|]. split; [done|].
        intros [[t Ht] _]%all_answered_cons. congruence.
      * exists false, 1%nat. split; [done|]. split; [done|]. split; [done|].
        intros [[t Ht] _]%all_answered_cons. congruence.
    + fold (user_texts rest). apply IH. done.
Qed.



End Resume.



(** The same restart evaluated: two replay calls on handle 0, in stored
    order, and the session current exactly as it was saved. *)
Example resume_two_user_messages :
  let r := check_and_resume_conversation (scripted []) restarted in
  fst r = Ret true /\
  calls (snd r) = [(0%nat, "Say ready."); (0%nat, "hello")] /\
  current_state (snd r) = Some saved_session /\
  current_state_file (snd r) = Some saved_session.
Proof. by vm_compute. Qed.

(** And with the second replay call failing: no session state becomes
    current and the record stays on disk. *)
Example resume_abandoned :
  let r := check_and_resume_conversation
             (scripted [Reply "Ready."; InternalError "500"]) restarted in
  fst r = Ret false /\
  calls (snd r) = [(0%nat, "Say ready."); (0%nat, "hello")] /\
  current_state (snd r) = None /\
  current_state_file (snd r) = Some saved_session /\
  history_dir (snd r) = ∅.
Proof. by vm_compute. Qed.

(** ** The message log grows by (user, model) pairs *)

Lemma paired_even msgs : paired msgs -> Nat.Even (length msgs).
Proof.
  induction 1 as [|msgs u m _ [k Hk] _ _]; [by exists 0%nat|].
  exists (S k). rewrite length_app. simpl. lia.
Qed.

Lemma paired_alternate msgs : paired msgs ->
  forall i msg, msgs !! i = Some msg ->
    role msg = if Nat.even i then "user" else "model".
Proof.
  induction 1 as [|msgs u m Hp IH Hu Hm]; intros i msg Hi; [done|].
  destruct (decide (i < length msgs)%nat) as [Hlt|Hge].
  - rewrite lookup_app_l in Hi by done. by apply IH.
  - rewrite lookup_app_r in Hi by lia.
    apply paired_even in Hp as [k Hk].
    destruct (i - length msgs)%nat as [|[|j]] eqn:Hd; simpl in Hi; [| |done].
    + injection Hi as <-. replace i with (2 * k)%nat by lia.
      by rewrite Nat.even_even.
    + injection Hi as <-. replace i with (S (2 * k))%nat by lia.
      by rewrite Nat.even_succ, Nat.odd_even.
Qed.

Section Pairs.

Variable P : Provider.

Lemma session_paired_same w w' :
  current_state w' = current_state w -> session_paired w -> session_paired w'.
Proof. intros H Hp st Hst. apply Hp. by rewrite <- H. Qed.

Lemma record_exchange_paired sent reply w :
  session_paired w -> session_paired (record_exchange sent reply w).
Proof.
  intros Hp st. unfold record_exchange, current_save, current_add_message.
  simpl. destruct (current_state w) as [st0|] eqn:H0; simpl; [|done].
  intros [= <-]. simpl. rewrite <- app_assoc. simpl.
  by apply (paired_snoc (messages st0)); [apply Hp | |].
Qed.

Lemma chat_send_message_state text w :
  current_state (snd (chat_send_message P text w)) = current_state w.
Proof. apply (su_state _ _ (chat_send_message_untouched P text w)). Qed.

Lemma send_attempts_paired content mr rd attempts : forall w,
  session_paired w ->
  session_paired (snd (send_attempts P content mr rd attempts w)).
Proof.
  induction attempts as [|attempt rest IH]; intros w Hp; [done|].
  simpl. pose proof (chat_send_message_state content w) as Hst.
  assert (Hretry : forall delay w1, session_paired w1 ->
    session_paired
      (snd ((sleep delay ;;; send_attempts P content mr rd rest) w1))).
  { intros delay w1 Hp1. unfold bind.
    pose proof (su_state _ _ (sleep_untouched delay w1)) as Hs.
    destruct (sleep delay w1) as [[[]|e|code] w2]; simpl in Hs |- *;
      [apply IH | |]; by apply (session_paired_same w1). }
  destruct (chat_send_message P content w) as [[t|e|e|e|e] w1]; simpl in Hst;
    pose proof (session_paired_same w w1 Hst Hp) as Hp1;
    [by apply record_exchange_paired | | | done | done];
    (destruct (attempt <? mr - 1); [by apply Hretry | done]).
Qed.

Lemma send_message_paired content w :
  session_paired w -> session_paired (snd (send_message P content w)).
Proof.
  intros Hp. unfold send_message.
  destruct (chat w), (current_state w) eqn:Hst; try done.
  by apply send_attempts_paired.
Qed.

Lemma start_new_conversation_paired name w :
  session_paired w -> session_paired (snd (start_new_conversation P name w)).
Proof.
  intros Hp. unfold start_new_conversation, with_prompt.
  destruct (if prompt_truthy (load_prompt name w) then _ else _) as [pc|];
    [|done].
  unfold create_chat. destruct (chats_create P (handles w) _); [|done].
  match goal with
  | |- context [chat_send_message P ?text ?w2] =>
      pose proof (chat_send_message_state text w2) as Hst;
      destruct (chat_send_message P text w2) as [o w3]
  end.
  simpl in Hst.
  assert (Hp3 : session_paired w3).
  { intros st Hs. rewrite Hst in Hs. injection Hs as <-. constructor. }
  destruct o; simpl; try done. by apply record_exchange_paired.
Qed.

Lemma route_send_paired content w :
  session_paired w -> session_paired (snd (route_send P content w)).
Proof.
  intros Hp. unfold route_send.
  destruct (current_state w) eqn:Hst; [by apply send_message_paired|].
  destruct (bool_decide _); [by apply start_new_conversation_paired|].
  unfold bind, ret.
  pose proof (start_new_conversation_paired "default" w Hp) as Hp1.
  destruct (start_new_conversation P "default" w) as [[result|e|c] w1];
    simpl in Hp1 |- *; try done.
  destruct (negb _); [by apply send_message_paired | done].
Qed.

Lemma run_op_paired o w : session_paired w -> session_paired (run_op P o w).
Proof.
  intros Hp. destruct o as [name|content|request| |dt]; simpl.
  - by apply start_new_conversation_paired.
  - by apply send_message_paired.
  - unfold handle_client.
    destruct (action_is request "send").
    { pose proof (route_send_paired (default "" (req_content request)) w Hp) as H.
      by destruct (route_send P _ w) as [[result|e|c] w1]. }
    destruct (action_is request "new"); [by intros st|].
    destruct (action_is request "status"); [done|].
    by destruct (action_is request "ping").
  - unfold check_timeout. destruct (current_state w) eqn:Hst; [|done].
    destruct (_ <? _); [|done].
    eapply session_paired_same; [|exact Hp].
    unfold shutdown, archive_current. simpl.
    destruct (load_current w); simpl;
      destruct (socket_open w); simpl; by destruct (socket_path_exists w).
  - done.
Qed.

(** C9.  In every state the daemon reaches from its construction through
    [start_new_conversation], [send_message], client requests, sweeps and
    the passing of time, the log of the current session was built by
    appending (user, model) pairs: its length is even and the roles
    alternate, starting with a user message. *)
Theorem reachable_log_is_paired w state :
  reachable P w ->
  current_state w = Some state ->
  paired (messages state) /\
  Nat.Even (length (messages state)) /\
  (forall i msg, messages state !! i = Some msg ->
     role msg = if Nat.even i then "user" else "model").
Proof.
  intros Hreach Hst.
  assert (Hp : session_paired w).
  { clear Hst. induction Hreach; [by intros st | by apply run_op_paired]. }
  specialize (Hp state Hst).
  split; [done|]. split; [by apply paired_even | by apply paired_alternate].
Qed.

End Pairs.
(** After the first ["hello"] of a first run the log holds the bootstrap
    pair and the pair of the message. *)
Lemma reachable_log_is_paired_witness :
  exists state,
    (reachable (scripted []) after_hello /\
     current_state after_hello = Some state) /\
    length (messages state) = 4%nat /\
    paired (messages state) /\
    Nat.Even (length (messages state)) /\
    (forall i msg, messages state !! i = Some msg ->
       role msg = if Nat.even i then "user" else "model").
Proof.
  assert (Hsome : exists state, current_state after_hello = Some state)
    by (vm_compute; eexists; reflexivity).
  destruct Hsome as [state Hst].
  assert (Hreach : reachable (scripted []) after_hello)
    by exact (reachable_op _ _ _ (reachable_new _ _ _ _ _ _)).
  assert (Hlen : length (messages state) = 4%nat).
  { pose proof Hst as Hv. vm_compute in Hv. injection Hv as <-. reflexivity. }
  exists state. split; [exact (conj Hreach Hst)|]. split; [exact Hlen|].
  exact (reachable_log_is_paired (scripted []) after_hello state Hreach Hst).
Defined.

(** * Further properties of the code *)

(** ** The state store *)

#[local] Instance str_le_total : Total str_le.
Proof. intros a b. apply String.leb_total. Qed.

(** X1.  Archiving a persisted record removes it from [current.json] and
    files a copy under the current second: the copy is marked inactive and
    otherwise equal to the record (same profile, model, instants and
    messages); the other archives and the daemon's in-memory session are
    left alone. *)
Theorem archive_current_moves_record w state :
  load_current w = Some state ->
  let w' := snd (archive_current w) in
  fst (archive_current w) = true /\
  load_current w' = None /\
  load_history (clock w) w' =
    Some {| active := false;
            prompt_name := prompt_name state;
            model := model state;
            created_at := created_at state;
            last_activity := last_activity state;
            messages := messages state |} /\
  (forall filename, filename <> clock w ->
     load_history filename w' = load_history filename w) /\
  current_state w' = current_state w /\
  chat w' = chat w.
Proof.
  intros Hload. unfold archive_current. rewrite Hload. simpl.
  unfold load_history. simpl.
  split; [done|]. split; [done|]. split; [by rewrite lookup_insert_eq|].
  split; [|done]. intros k Hk. by rewrite lookup_insert_ne.
Qed.

(** The archiving of [idle_daemon]'s record. *)
Lemma archive_current_moves_record_witness :
  exists state,
    load_current idle_daemon = Some state /\
    let w' := snd (archive_current idle_daemon) in
    fst (archive_current idle_daemon) = true /\
    load_current w' = None /\
    load_history (clock idle_daemon) w' =
      Some {| active := false;
              prompt_name := prompt_name state;
              model := model state;
              created_at := created_at state;
              last_activity := last_activity state;
              messages := messages state |} /\
    (forall filename, filename <> clock idle_daemon ->
       load_history filename w' = load_history filename idle_daemon) /\
    current_state w' = current_state idle_daemon /\
    chat w' = chat idle_daemon.
Proof.
  assert (Hsome : exists state, load_current idle_daemon = Some state)
    by (vm_compute; eexists; reflexivity).
  destruct Hsome as [state Hload]. exists state. split; [exact Hload|].
  exact (archive_current_moves_record idle_daemon state Hload).
Defined.

(** X2.  Archiving is idempotent: once the record is archived, or when
    there was none, [archive_current] answers [False] and changes
    nothing. *)
Theorem archive_current_twice w :
  archive_current (snd (archive_current w)) = (false, snd (archive_current w)).
Proof.
  unfold archive_current, load_current.
  destruct (current_state_file w) as [state|] eqn:Hfile; simpl; [done|].
  by rewrite Hfile.
Qed.

(** X3.  The number of archives grows by one with each archived record,
    except when an archive written in the same second already exists: that
    one is overwritten and the count stays the same. *)
Theorem archive_current_history_count w state :
  load_current w = Some state ->
  length (list_history (snd (archive_current w))) =
    if decide (is_Some (load_history (clock w) w))
    then length (list_history w)
    else S (length (list_history w)).
Proof.
  intros Hload. rewrite !list_history_length.
  unfold archive_current, load_history. rewrite Hload. simpl.
  destruct (history_dir w !! clock w) as [old|] eqn:Hold.
  - rewrite decide_True by eauto. by apply map_size_insert_Some.
  - rewrite decide_False by (by intros [? ?]). by apply map_size_insert_None.
Qed.

(** Two archives within one second: the second replaces the first. *)
Lemma archive_current_history_count_witness :
  let w := save_current saved_session (snd (archive_current idle_daemon)) in
  (load_current w = Some saved_session /\
   is_Some (load_history (clock w) w)) /\
  length (list_history (snd (archive_current w))) = length (list_history w) /\
  load_history (clock w) (snd (archive_current w)) =
    Some (mark_inactive saved_session).
Proof.
  intros w.
  assert (Hload : load_current w = Some saved_session) by reflexivity.
  assert (Hold : is_Some (load_history (clock w) w))
    by (vm_compute; eexists; reflexivity).
  split; [done|]. split.
  - rewrite (archive_current_history_count w saved_session Hload).
    by rewrite decide_True.
  - by vm_compute.
Defined.

Lemma elem_of_list_history w filename :
  filename ∈ list_history w <-> is_Some (history_dir w !! filename).
Proof.
  unfold list_history.
  rewrite elem_of_reverse, merge_sort_Permutation, list_elem_of_fmap. split.
  - intros ([k' st] & -> & Hin). apply elem_of_map_to_list in Hin. eauto.
  - intros [st Hst]. exists (filename, st). split; [done|].
    by apply elem_of_map_to_list.
Qed.

(** X4.  [list_history] lists every archive exactly once, newest first. *)
Theorem list_history_newest_first w :
  Sorted (flip Z.le) (list_history w) /\
  NoDup (list_history w) /\
  (forall filename,
     filename ∈ list_history w <-> is_Some (load_history filename w)).
Proof.
  unfold list_history, load_history.
  pose proof (merge_sort_Permutation Z.le (map_to_list (history_dir w)).*1) as Hp.
  split; [|split].
  - apply Sorted_reverse, Sorted_merge_sort. apply _.
  - rewrite reverse_Permutation, Hp. apply NoDup_fst_map_to_list.
  - intros k. apply elem_of_list_history.
Qed.

Lemma elem_of_list_prompts w name :
  name ∈ list_prompts w <-> is_Some (prompts_dir w !! name).
Proof.
  unfold list_prompts.
  rewrite merge_sort_Permutation, list_elem_of_fmap. split.
  - intros ([k' st] & -> & Hin). apply elem_of_map_to_list in Hin. eauto.
  - intros [st Hst]. exists (name, st). split; [done|].
    by apply elem_of_map_to_list.
Qed.


Lemma unlink_all_lookup (l : list Z) : forall w filename,
  history_dir (fold_left unlink_history l w) !! filename =
    if decide (filename ∈ l) then None else history_dir w !! filename.
Proof.
  induction l as [|k l IH]; intros w f; simpl.
  - destruct (decide (f ∈ [])) as [Hin|]; [|done]. by apply not_elem_of_nil in Hin.
  - rewrite IH. simpl.
    destruct (decide (f ∈ l)) as [Hin|Hnot], (decide (f ∈ k :: l)) as [Hin'|Hnot'];
      try done.
    + destruct Hnot'. by right.
    + apply elem_of_cons in Hin' as [->|?]; [|done]. apply lookup_delete_eq.
    + apply lookup_delete_ne. intros ->. destruct Hnot'. by left.
Qed.

Lemma unlink_all_other (l : list Z) : forall w,
  current_state_file (fold_left unlink_history l w) = current_state_file w /\
  current_state (fold_left unlink_history l w) = current_state w /\
  chat (fold_left unlink_history l w) = chat w.
Proof.
  induction l as [|k l IH]; intros w; simpl; [done|].
  destruct (IH (unlink_history w k)) as (-> & -> & ->). done.
Qed.

Lemma list_history_empty w : history_dir w = ∅ -> list_history w = [].
Proof. unfold list_history. intros ->. by rewrite map_to_list_empty. Qed.

(** X6.  After [clear_all] nothing is left on disk: no current record, no
    archive, and the status is the one of no conversation.  The daemon's
    in-memory session is not touched. *)
Theorem clear_all_leaves_nothing w :
  let w' := snd (clear_all w) in
  fst (clear_all w) = true /\
  load_current w' = None /\
  list_history w' = [] /\
  (forall filename, load_history filename w' = None) /\
  get_status w' =
    <["active" := VBool false]>
      (<["message" := VStr "No active conversation"]> ∅) /\
  current_state w' = current_state w /\
  chat w' = chat w.
Proof.
  unfold clear_all. simpl.
  set (w1 := match current_state_file w with
             | Some _ => set_current_state_file None w
             | None => w
             end).
  assert (Hfile : current_state_file w1 = None).
  { subst w1. by destruct (current_state_file w) eqn:H. }
  assert (Hmem : current_state w1 = current_state w /\ chat w1 = chat w).
  { subst w1. by destruct (current_state_file w). }
  destruct (unlink_all_other (list_history w1) w1) as (Hf & Hs & Hc).
  assert (Hempty : history_dir (fold_left unlink_history (list_history w1) w1) = ∅).
  { apply map_eq. intros k. rewrite unlink_all_lookup, lookup_empty.
    destruct (decide (k ∈ list_history w1)) as [|Hnot]; [done|].
    destruct (history_dir w1 !! k) as [st|] eqn:Hk; [|done].
    destruct Hnot. apply elem_of_list_history. eauto. }
  split; [done|]. split; [unfold load_current; congruence|].
  split; [|split; [|split]].
  - by apply list_history_empty.
  - intros k. unfold load_history. by rewrite Hempty.
  - unfold get_status, load_current. by rewrite Hf, Hfile.
  - destruct Hmem. split; congruence.
Qed.

(** ** Serialization *)

Lemma Message_round_trip now m :
  Message_from_dict now (Message_to_dict m) ≫= typed_message = Some m.
Proof.
  unfold Message_from_dict, Message_to_dict.
  rewrite bool_decide_eq_true_2.
  - rewrite lookup_insert_eq.
    rewrite lookup_insert_ne, lookup_insert_eq by done.
    rewrite !lookup_insert_ne, lookup_insert_eq by done. by destruct m.
  - rewrite !dom_insert_L, dom_empty_L. set_solver.
Qed.

Lemma messages_round_trip now msgs :
  messages_from_dicts now (map Message_to_dict msgs) = Some msgs.
Proof.
  induction msgs as [|m msgs IH]; [done|].
  simpl. by rewrite Message_round_trip, IH.
Qed.

(** X7.  Decoding what [to_dict] encodes gives the state back, whatever the
    instant of the decoding: every field and every message, with its
    timestamp, survives a save followed by a load. *)
Theorem from_dict_to_dict now s : from_dict now (to_dict s) = Some s.
Proof.
  unfold from_dict, to_dict.
  rewrite (lookup_insert_ne _ "active" "messages") by done.
  rewrite (lookup_insert_ne _ "prompt_name" "messages") by done.
  rewrite (lookup_insert_ne _ "model" "messages") by done.
  rewrite (lookup_insert_ne _ "created_at" "messages") by done.
  rewrite (lookup_insert_ne _ "last_activity" "messages") by done.
  rewrite lookup_insert_eq. simpl. rewrite messages_round_trip.
  rewrite lookup_insert_eq.
  rewrite (lookup_insert_ne _ "active" "prompt_name"), lookup_insert_eq by done.
  rewrite (lookup_insert_ne _ "active" "model") by done.
  rewrite (lookup_insert_ne _ "prompt_name" "model"), lookup_insert_eq by done.
  rewrite (lookup_insert_ne _ "active" "created_at") by done.
  rewrite (lookup_insert_ne _ "prompt_name" "created_at") by done.
  rewrite (lookup_insert_ne _ "model" "created_at"), lookup_insert_eq by done.
  rewrite (lookup_insert_ne _ "active" "last_activity") by done.
  rewrite (lookup_insert_ne _ "prompt_name" "last_activity") by done.
  rewrite (lookup_insert_ne _ "model" "last_activity") by done.
  rewrite (lookup_insert_ne _ "created_at" "last_activity"), lookup_insert_eq by done.
  simpl. by destruct s.
Qed.

(** X8.  [Message.from_dict] accepts a dictionary exactly when it has the
    keys [role] and [content] and no key besides [role], [content] and
    [timestamp].  It checks no type: the message holds the values of
    [role] and [content] as they are, and the value of [timestamp], or the
    decoding instant when the timestamp is missing or null. *)
Theorem Message_from_dict_accepts now data :
  (is_Some (Message_from_dict now data) <->
     is_Some (data !! "role") /\ is_Some (data !! "content") /\
     forall key, is_Some (data !! key) ->
       key = "role" \/ key = "content" \/ key = "timestamp") /\
  (forall m, Message_from_dict now data = Some m ->
     data !! "role" = Some (raw_role m) /\
     data !! "content" = Some (raw_content m) /\
     raw_timestamp m =
       match data !! "timestamp" with
       | None | Some JNull => JTime now
       | Some t => t
       end).
Proof.
  unfold Message_from_dict. split.
  - case_bool_decide as Hdom.
    + assert (Hkeys : forall key, is_Some (data !! key) ->
        key = "role" \/ key = "content" \/ key = "timestamp").
      { intros key Hkey. apply elem_of_dom, Hdom in Hkey.
        rewrite !elem_of_union, !elem_of_singleton in Hkey. tauto. }
      destruct (data !! "role") as [r|] eqn:Hr;
        destruct (data !! "content") as [c|] eqn:Hc.
      * split; [intros _; repeat split; eauto | by eauto].
      * split; [by intros [? ?] | by intros (_ & [? ?] & _)].
      * split; [by intros [? ?] | by intros ([? ?] & _)].
      * split; [by intros [? ?] | by intros ([? ?] & _)].
    + split; [by intros [? ?]|]. intros (_ & _ & Hkeys). destruct Hdom.
      intros key Hkey%elem_of_dom. apply Hkeys in Hkey.
      rewrite !elem_of_union, !elem_of_singleton. tauto.
  - intros m. case_bool_decide as Hdom; [|done].
    destruct (data !! "role") as [r|], (data !! "content") as [c|]; try done.
    by intros [= <-].
Qed.

(** A dictionary whose role is a number decodes, and the message holds the
    number. *)
Example Message_from_dict_numeric_role :
  Message_from_dict 7 (<["role" := JNum 1]> (<["content" := JStr "hello"]> ∅)) =
    Some {| raw_role := JNum 1; raw_content := JStr "hello"; raw_timestamp := JTime 7 |}.
Proof. by vm_compute. Qed.

(** ** Prompt profiles *)

Lemma add_prompts_lookup w (l : list string) : forall acc name,
  fold_left (add_prompt w) l acc !! name =
    if decide (name ∈ l /\ prompt_truthy (load_prompt name w) = true)
    then load_prompt name w
    else acc !! name.
Proof.
  induction l as [|k l IH]; intros acc name; cbn [fold_left].
  - case_decide as Hin; [|done]. destruct Hin as [Hin _].
    by apply not_elem_of_nil in Hin.
  - rewrite IH.
    destruct (decide (name ∈ l /\ prompt_truthy (load_prompt name w) = true))
      as [[Hin Ht]|Hnot].
    + rewrite decide_True; [done|]. split; [by right | done].
    + destruct (decide (name ∈ k :: l /\ prompt_truthy (load_prompt name w) = true))
        as [[Hin Ht]|Hnot'].
      * apply elem_of_cons in Hin as [->|Hin]; [|by destruct Hnot].
        unfold add_prompt. destruct (load_prompt k w) as [pc|]; [|done].
        rewrite Ht. apply lookup_insert_eq.
      * unfold add_prompt.
        destruct (load_prompt k w) as [pc|] eqn:Hk; [|done].
        destruct (prompt_truthy (Some pc)) eqn:Ht; [|done].
        apply lookup_insert_ne. intros ->. destruct Hnot'.
        split; [by left | by rewrite Hk].
Qed.

(** X9.  [get_all_prompts] holds exactly the prompt files whose content is
    not empty, each under its file name; and these are the names that
    [start_new_conversation] resolves to their own profile, without falling
    back to ["default"]. *)
Theorem get_all_prompts_lookup w name pc :
  get_all_prompts w !! name = Some pc <->
  load_prompt name w = Some pc /\ prompt_truthy (Some pc) = true /\
  resolve_profile name w = (name, Some pc).
Proof.
  unfold get_all_prompts. rewrite add_prompts_lookup, lookup_empty.
  unfold resolve_profile. split.
  - case_decide as Hin; [|done]. destruct Hin as [Hin Ht]. intros Hl.
    rewrite Hl in Ht |- *. by rewrite Ht.
  - intros (Hl & Ht & _). rewrite decide_True; [done|].
    rewrite Hl. split; [|done]. apply elem_of_list_prompts.
    unfold load_prompt in Hl. eauto.
Qed.

(** ** Sending *)

Section Sending.

Variable P : Provider.

Lemma store_frame_refl w : store_frame w w.
Proof. by split. Qed.

Lemma store_frame_trans w1 w2 w3 :
  store_frame w1 w2 -> store_frame w2 w3 -> store_frame w1 w3.
Proof. intros [] []; split; congruence. Qed.

Lemma record_exchange_frame sent reply w :
  store_frame w (record_exchange sent reply w).
Proof.
  unfold record_exchange, current_save, current_add_message. simpl.
  by destruct (current_state w).
Qed.

Lemma chat_send_message_frame text w :
  store_frame w (snd (chat_send_message P text w)).
Proof. unfold chat_send_message. by destruct (chat w). Qed.

Lemma sleep_frame delay w : store_frame w (snd (sleep delay w)).
Proof. unfold sleep. by destruct (delay <? 0). Qed.

Lemma send_attempts_frame content mr rd attempts : forall w,
  store_frame w (snd (send_attempts P content mr rd attempts w)).
Proof.
  induction attempts as [|attempt rest IH]; intros w; [apply store_frame_refl|].
  simpl. pose proof (chat_send_message_frame content w) as H1.
  assert (Hretry : forall delay w1, store_frame w w1 ->
    store_frame w
      (snd ((sleep delay ;;; send_attempts P content mr rd rest) w1))).
  { intros delay w1 Hw1. unfold bind.
    pose proof (sleep_frame delay w1) as Hs.
    destruct (sleep delay w1) as [[[]|e|code] w2]; simpl in Hs |- *;
      eauto using store_frame_trans. }
  destruct (chat_send_message P content w) as [[t|e|e|e|e] w1]; simpl in H1 |- *;
    [eauto using store_frame_trans, record_exchange_frame | | | done | done];
    (destruct (attempt <? mr - 1); [by apply Hretry | done]).
Qed.

Lemma send_message_frame content w :
  store_frame w (snd (send_message P content w)).
Proof.
  unfold send_message.
  destruct (chat w), (current_state w); try apply store_frame_refl.
  apply send_attempts_frame.
Qed.

Lemma start_new_conversation_frame name w :
  store_frame w (snd (start_new_conversation P name w)).
Proof.
  unfold start_new_conversation, with_prompt.
  destruct (if prompt_truthy (load_prompt name w) then _ else _) as [pc|];
    [|apply store_frame_refl].
  unfold create_chat. destruct (chats_create P (handles w) _); [|by split].
  match goal with
  | |- context [chat_send_message P ?text ?w2] =>
      pose proof (chat_send_message_frame text w2) as H1;
      destruct (chat_send_message P text w2) as [o w3]
  end.
  simpl in H1. assert (H0 : store_frame w w3) by (destruct H1; by split).
  destruct o; simpl; try done.
  eauto using store_frame_trans, record_exchange_frame.
Qed.

Lemma route_send_frame content w :
  store_frame w (snd (route_send P content w)).
Proof.
  unfold route_send.
  destruct (current_state w); [apply send_message_frame|].
  destruct (bool_decide _); [apply start_new_conversation_frame|].
  unfold bind, ret.
  pose proof (start_new_conversation_frame "default" w) as H1.
  destruct (start_new_conversation P "default" w) as [[result|e|c] w1];
    simpl in H1 |- *; try done.
  destruct (negb _); [|done].
  eauto using store_frame_trans, send_message_frame.
Qed.

(** The state after an answered send. *)
Lemma send_attempts_recorded content mr rd attempts : forall w c state r w',
  chat w = Some c ->
  current_state w = Some state ->
  send_attempts P content mr rd attempts w = (r, w') ->
  (exists k t, (length (calls w) <= k < length (calls w'))%nat /\
     respond P k content = Reply t) ->
  exists reply,
    r = Ret reply /\
    respond P (length (calls w') - 1) content = Reply reply /\
    current_state w' =
      Some (add_message "model" reply (clock w')
              (add_message "user" content (clock w') state)) /\
    current_state_file w' = current_state w' /\
    daemon_last_activity w' = clock w'.
Proof.
  induction attempts as [|attempt rest IH]; intros w c st r w' Hc Hst Hrun Hans.
  - simpl in Hrun. injection Hrun as <- <-. destruct Hans as (k & t & Hk & _). lia.
  - simpl in Hrun. rewrite (chat_send_message_active P c) in Hrun by done.
    set (w1 := set_calls _ w) in Hrun.
    assert (Hlen1 : length (calls w1) = S (length (calls w))).
    { subst w1. simpl. rewrite length_app. simpl. lia. }
    assert (Hstop : forall text,
      (forall t, respond P (length (calls w)) content <> Reply t) ->
      (r, w') = (Ret text, w1) -> False).
    { intros text Hno [= -> ->]. destruct Hans as (k & t & Hk & Hr).
      assert (k = length (calls w)) as -> by lia. by destruct (Hno t). }
    assert (Hretry : forall delay,
      (forall t, respond P (length (calls w)) content <> Reply t) ->
      (sleep delay ;;; send_attempts P content mr rd rest) w1 = (r, w') ->
      exists reply,
        r = Ret reply /\
        respond P (length (calls w') - 1) content = Reply reply /\
        current_state w' =
          Some (add_message "model" reply (clock w')
                  (add_message "user" content (clock w') st)) /\
        current_state_file w' = current_state w' /\
        daemon_last_activity w' = clock w').
    { intros delay Hno. unfold bind.
      pose proof (sleep_untouched delay w1) as Hu.
      assert (Hlen2 : length (calls (snd (sleep delay w1))) = S (length (calls w)))
        by (by rewrite sleep_calls).
      destruct (sleep delay w1) as [[[]|e|code] w2]; simpl in Hu, Hlen2.
      - intros Hrest. apply (IH w2 c st r w'); try done.
        + by rewrite (su_chat _ _ Hu).
        + by rewrite (su_state _ _ Hu).
        + destruct Hans as (k & t & Hk & Hr). exists k, t. split; [|done].
          destruct (decide (k = length (calls w))) as [->|]; [|lia].
          by destruct (Hno t).
      - intros [= <- <-]. destruct Hans as (k & t & Hk & Hr).
        assert (k = length (calls w)) as -> by lia. by destruct (Hno t).
      - intros [= <- <-]. destruct Hans as (k & t & Hk & Hr).
        assert (k = length (calls w)) as -> by lia. by destruct (Hno t). }
    destruct (respond P (length (calls w)) content) as [t|e|e|e|e] eqn:Hr.
    + injection Hrun as <- <-. exists t.
      unfold record_exchange, current_save, current_add_message. simpl.
      rewrite Hst. simpl. rewrite length_app. simpl.
      replace (length (calls w) + 1 - 1)%nat with (length (calls w)) by lia.
      done.
    + destruct (attempt <? mr - 1); [by eapply Hretry | by destruct (Hstop _ ltac:(done) (eq_sym Hrun))].
    + destruct (attempt <? mr - 1); [by eapply Hretry | by destruct (Hstop _ ltac:(done) (eq_sym Hrun))].
    + by destruct (Hstop _ ltac:(done) (eq_sym Hrun)).
    + by destruct (Hstop _ ltac:(done) (eq_sym Hrun)).
Qed.

End Sending.

Section SendingResults.

Variable P : Provider.

(** X10.  A send in Active state that is answered, after [j] transient
    failures, returns the reply and records the exchange: the log grows by
    exactly the user message and the model reply, both stamped with the
    instant of the reply, the persisted record equals the in-memory state,
    the daemon's idle clock restarts, and the status counts two more
    messages. *)
Theorem send_message_records_exchange content w c state reply (j : nat) :
  chat w = Some c ->
  current_state w = Some state ->
  0 <= retry_delay_seconds (config w) ->
  Z.of_nat j < max_retries (config w) ->
  (forall i, (i < j)%nat ->
     transient (respond P (length (calls w) + i) content) = true) ->
  respond P (length (calls w) + j) content = Reply reply ->
  exists w',
    send_message P content w = (Ret reply, w') /\
    current_state w' =
      Some {| active := active state;
              prompt_name := prompt_name state;
              model := model state;
              created_at := created_at state;
              last_activity := clock w';
              messages := messages state ++
                [mkMessage "user" content (clock w');
                 mkMessage "model" reply (clock w')] |} /\
    load_current w' = current_state w' /\
    daemon_last_activity w' = clock w' /\
    get_status w' !! "message_count" =
      Some (VInt (get_message_count state + 2)).
Proof.
  intros Hc Hst Hrd Hj Htr Hreply.
  assert (Hrun : exists w',
    send_message P content w = (Ret reply, w') /\
    calls w' = calls w ++ replicate (S j) (handle c, content)).
  { unfold send_message. rewrite Hc, Hst. unfold range.
    destruct (send_attempts_retries P content (max_retries (config w))
                (retry_delay_seconds (config w)) c j 0
                (Z.to_nat (max_retries (config w))) w)
      as (w' & Hrun & Hcalls & _); try done; try lia.
    - left. by rewrite Hreply.
    - exists w'. rewrite Hreply in Hrun. done. }
  destruct Hrun as (w' & Hrun & Hcalls). exists w'. split; [done|].
  pose proof Hrun as Hrun'. unfold send_message in Hrun'.
  rewrite Hc, Hst in Hrun'.
  destruct (send_attempts_recorded P _ _ _ _ w c state _ w' Hc Hst Hrun')
    as (reply' & [= <-] & _ & Hstate & Hfile & Hact).
  { exists (length (calls w) + j)%nat, reply. split; [|done].
    rewrite Hcalls, length_app, length_replicate. lia. }
  rewrite Hstate. unfold load_current. rewrite Hfile, Hstate.
  split; [|split; [done|split; [done|]]].
  - unfold add_message. simpl. by rewrite <- app_assoc.
  - unfold get_status, load_current. rewrite Hfile, Hstate.
    repeat (rewrite lookup_insert_ne by done). rewrite lookup_insert_eq.
    unfold get_message_count. simpl. rewrite !length_app. simpl.
    do 2 f_equal. lia.
Qed.

(** X11.  After an answered send the idle sweep leaves the session alone
    for the whole timeout: at [dt] seconds after the reply the sweep is due
    exactly when [dt] exceeds [timeout_hours] hours. *)
Theorem sweep_after_exchange content w c state reply (j : nat) dt :
  chat w = Some c ->
  current_state w = Some state ->
  0 <= retry_delay_seconds (config w) ->
  Z.of_nat j < max_retries (config w) ->
  (forall i, (i < j)%nat ->
     transient (respond P (length (calls w) + i) content) = true) ->
  respond P (length (calls w) + j) content = Reply reply ->
  let w' := snd (send_message P content w) in
  (sweep_due (wait dt w') <-> 3600 * timeout_hours w < dt) /\
  (dt <= 3600 * timeout_hours w -> check_timeout (wait dt w') = (Ret tt, wait dt w')).
Proof.
  intros Hc Hst Hrd Hj Htr Hreply w'.
  assert (Hrun : exists w1, send_message P content w = (Ret reply, w1)).
  { unfold send_message. rewrite Hc, Hst. unfold range.
    destruct (send_attempts_retries P content (max_retries (config w))
                (retry_delay_seconds (config w)) c j 0
                (Z.to_nat (max_retries (config w))) w)
      as (w1 & Hrun & _); try done; try lia.
    - left. by rewrite Hreply.
    - exists w1. rewrite Hreply in Hrun. done. }
  destruct Hrun as (w1 & Hrun).
  pose proof (send_message_frame P content w) as Hframe.
  pose proof Hrun as Hrun'. unfold send_message in Hrun'.
  rewrite Hc, Hst in Hrun'.
  assert (Hcalls : calls w1 = calls w ++ replicate (S j) (handle c, content)).
  { unfold range in Hrun'.
    destruct (send_attempts_retries P content (max_retries (config w))
                (retry_delay_seconds (config w)) c j 0
                (Z.to_nat (max_retries (config w))) w)
      as (w2 & Hrun2 & Hcalls & _); try done; try lia.
    - left. by rewrite Hreply.
    - rewrite Hrun' in Hrun2. by injection Hrun2 as _ <-. }
  destruct (send_attempts_recorded P _ _ _ _ w c state _ w1 Hc Hst Hrun')
    as (reply' & _ & _ & Hstate & _ & Hact).
  { exists (length (calls w) + j)%nat, reply. split; [|done].
    rewrite Hcalls, length_app, length_replicate. lia. }
  subst w'. rewrite Hrun in *. simpl in *.
  assert (Hdue : sweep_due (wait dt w1) <-> 3600 * timeout_hours w < dt).
  { unfold sweep_due, wait. simpl.
    rewrite Hstate, Hact, (sf_timeout _ _ Hframe). split.
    - intros [_ H]. lia.
    - intros H. split; [eauto | lia]. }
  split; [exact Hdue|].
  intros Hdt. apply check_timeout_not_due. rewrite Hdue. lia.
Qed.

(** The attempts of a send, counted: at most one call per attempt, each
    with the content on the current handle, and a total pause bounded by
    the geometric sum of the backoffs. *)
Lemma send_attempts_bounds content mr rd c : forall (m a : nat) w,
  chat w = Some c ->
  0 <= rd ->
  (1 <= m)%nat ->
  Z.of_nat (a + m) = mr ->
  let w' := snd (send_attempts P content mr rd (map Z.of_nat (seq a m)) w) in
  exists n : nat,
    (1 <= n <= m)%nat /\
    calls w' = calls w ++ replicate n (handle c, content) /\
    length (sleeps w') = (length (sleeps w) + (n - 1))%nat /\
    clock w <= clock w' <= clock w + rd * (2 ^ (mr - 1) - 2 ^ Z.of_nat a).
Proof.
  induction m as [|m IH]; intros a w Hc Hrd Hm Hmr; [lia|].
  simpl seq. simpl map. cbn [send_attempts].
  rewrite (chat_send_message_active P c) by done.
  set (w1 := set_calls _ w).
  assert (Hpow : 2 ^ Z.of_nat a <= 2 ^ (mr - 1)).
  { apply Z.pow_le_mono_r; lia. }
  assert (Hone : exists n : nat,
    (1 <= n <= S m)%nat /\
    calls w1 = calls w ++ replicate n (handle c, content) /\
    length (sleeps w1) = (length (sleeps w) + (n - 1))%nat /\
    clock w <= clock w1 <= clock w + rd * (2 ^ (mr - 1) - 2 ^ Z.of_nat a)).
  { exists 1%nat. subst w1. simpl. split; [lia|]. split; [done|].
    split; [lia|]. rewrite Z.mul_sub_distr_l.
    assert (rd * 2 ^ Z.of_nat a <= rd * 2 ^ (mr - 1))
      by (by apply Z.mul_le_mono_nonneg_l).
    lia. }
  assert (Hretry : forall delay, 0 <= delay <= rd * 2 ^ Z.of_nat a ->
    (Z.of_nat a <? mr - 1) = true ->
    let w' := snd ((sleep delay ;;;
                    send_attempts P content mr rd (map Z.of_nat (seq (S a) m))) w1) in
    exists n : nat,
      (1 <= n <= S m)%nat /\
      calls w' = calls w ++ replicate n (handle c, content) /\
      length (sleeps w') = (length (sleeps w) + (n - 1))%nat /\
      clock w <= clock w' <= clock w + rd * (2 ^ (mr - 1) - 2 ^ Z.of_nat a)).
  { intros delay Hd Hlt%Z.ltb_lt. unfold bind. rewrite sleep_ok by lia.
    set (w2 := set_clock _ _).
    destruct (IH (S a) w2) as (n & Hn & Hcalls & Hsleeps & Hclock);
      [done | done | lia | lia |].
    exists (S n). split; [lia|]. split; [|split].
    - rewrite Hcalls. subst w2 w1. simpl. by rewrite <- app_assoc.
    - rewrite Hsleeps. subst w2 w1. simpl. rewrite length_app. simpl. lia.
    - assert (Hc2 : clock w2 = clock w + delay) by reflexivity.
      rewrite Hc2 in Hclock.
      replace (2 ^ Z.of_nat (S a)) with (2 * 2 ^ Z.of_nat a) in Hclock
        by (rewrite Nat2Z.inj_succ, Z.pow_succ_r; lia).
      rewrite Z.mul_sub_distr_l in Hclock |- *.
      replace (rd * (2 * 2 ^ Z.of_nat a)) with (2 * (rd * 2 ^ Z.of_nat a))
        in Hclock by ring.
      lia. }
  assert (H2 : 1 <= 2 ^ Z.of_nat a)
    by (pose proof (Z.pow_pos_nonneg 2 (Z.of_nat a)); lia).
  destruct (respond P (length (calls w)) content) as [t|e|e|e|e] eqn:Hr.
  - cbv zeta. cbn [snd]. rewrite record_exchange_calls, record_exchange_sleeps.
    destruct Hone as (n & Hn & Hcalls & Hsleeps & Hclock).
    exists n. split; [done|]. split; [done|]. split; [done|].
    assert (Hsame : clock (record_exchange content t w1) = clock w1).
    { unfold record_exchange, current_save, current_add_message. simpl.
      by destruct (current_state w). }
    by rewrite Hsame.
  - destruct (Z.of_nat a <? mr - 1) eqn:Hlt; [|exact Hone].
    apply Hretry; [|done]. split; [by apply backoff_nonneg; lia | lia].
  - destruct (Z.of_nat a <? mr - 1) eqn:Hlt; [|exact Hone].
    apply Hretry; [|done]. split; [lia|].
    rewrite <- (Z.mul_1_r rd) at 1. by apply Z.mul_le_mono_nonneg_l.
  - exact Hone.
  - exact Hone.
Qed.

(** X12.  However the provider behaves, a send in Active state makes at
    most [max_retries] provider calls, every one of them with the given
    content on the current handle, sleeps once between two calls, and
    blocks in sleeps for at most
    [retry_delay * (2 ^ (max_retries - 1) - 1)] seconds. *)
Theorem send_message_bounds content w c state :
  chat w = Some c ->
  current_state w = Some state ->
  0 <= retry_delay_seconds (config w) ->
  let w' := snd (send_message P content w) in
  exists n : nat,
    Z.of_nat n <= Z.max 0 (max_retries (config w)) /\
    calls w' = calls w ++ replicate n (handle c, content) /\
    length (sleeps w') = (length (sleeps w) + (n - 1))%nat /\
    clock w <= clock w' <=
      clock w + retry_delay_seconds (config w) *
                  (2 ^ (Z.max 1 (max_retries (config w)) - 1) - 1).
Proof.
  intros Hc Hst Hrd. unfold send_message. rewrite Hc, Hst. unfold range.
  destruct (Z.to_nat (max_retries (config w))) as [|m] eqn:Hm.
  - simpl. exists 0%nat. simpl. rewrite app_nil_r.
    split; [lia|]. split; [done|]. split; [lia|].
    replace (Z.max 1 (max_retries (config w))) with 1 by lia.
    change (2 ^ (1 - 1) - 1) with 0. rewrite Z.mul_0_r. lia.
  - destruct (send_attempts_bounds content (max_retries (config w))
                (retry_delay_seconds (config w)) c (S m) 0 w)
      as (n & Hn & Hcalls & Hsleeps & Hclock); [done | done | lia | lia |].
    exists n. split; [lia|]. split; [done|]. split; [done|].
    replace (Z.max 1 (max_retries (config w))) with (max_retries (config w)) by lia.
    change (2 ^ Z.of_nat 0) with 1 in Hclock. lia.
Qed.

End SendingResults.

(** The default settings: rate limited twice, then answered. *)
Lemma send_message_records_exchange_witness :
  let w := bootstrapped two_rate_limits in
  exists c state w',
    (chat w = Some c /\ current_state w = Some state /\
     0 <= retry_delay_seconds (config w) /\
     Z.of_nat 2 < max_retries (config w) /\
     respond two_rate_limits (length (calls w) + 2) "hello" = Reply "hi") /\
    send_message two_rate_limits "hello" w = (Ret "hi", w') /\
    current_state w' =
      Some {| active := active state;
              prompt_name := prompt_name state;
              model := model state;
              created_at := created_at state;
              last_activity := clock w';
              messages := messages state ++
                [mkMessage "user" "hello" (clock w');
                 mkMessage "model" "hi" (clock w')] |} /\
    load_current w' = current_state w' /\
    daemon_last_activity w' = clock w' /\
    get_status w' !! "message_count" =
      Some (VInt (get_message_count state + 2)).
Proof.
  intros w.
  destruct (chat w) as [c|] eqn:Hc; [|discriminate Hc].
  destruct (current_state w) as [state|] eqn:Hst; [|discriminate Hst].
  assert (Hrd : 0 <= retry_delay_seconds (config w)) by (vm_compute; discriminate).
  assert (Hj : Z.of_nat 2 < max_retries (config w)) by reflexivity.
  assert (Htr : forall i, (i < 2)%nat ->
    transient (respond two_rate_limits (length (calls w) + i) "hello") = true).
  { intros i Hi. destruct i as [|[|i]]; [reflexivity | reflexivity | lia]. }
  assert (Hreply : respond two_rate_limits (length (calls w) + 2) "hello" = Reply "hi")
    by reflexivity.
  destruct (send_message_records_exchange two_rate_limits "hello" w c state "hi" 2
              Hc Hst Hrd Hj Htr Hreply) as (w' & H).
  exists c, state, w'. done.
Defined.

(** The same send, and the sweeps of the following twelve hours. *)
Lemma sweep_after_exchange_witness :
  let w := bootstrapped two_rate_limits in
  let w' := snd (send_message two_rate_limits "hello" w) in
  exists c state,
    (chat w = Some c /\ current_state w = Some state /\
     0 <= retry_delay_seconds (config w) /\
     Z.of_nat 2 < max_retries (config w) /\
     respond two_rate_limits (length (calls w) + 2) "hello" = Reply "hi") /\
    (sweep_due (wait (12 * 3600) w') <-> 3600 * timeout_hours w < 12 * 3600) /\
    (12 * 3600 <= 3600 * timeout_hours w ->
     check_timeout (wait (12 * 3600) w') = (Ret tt, wait (12 * 3600) w')).
Proof.
  intros w w'.
  destruct (chat w) as [c|] eqn:Hc; [|discriminate Hc].
  destruct (current_state w) as [state|] eqn:Hst; [|discriminate Hst].
  assert (Hrd : 0 <= retry_delay_seconds (config w)) by (vm_compute; discriminate).
  assert (Hj : Z.of_nat 2 < max_retries (config w)) by reflexivity.
  assert (Htr : forall i, (i < 2)%nat ->
    transient (respond two_rate_limits (length (calls w) + i) "hello") = true).
  { intros i Hi. destruct i as [|[|i]]; [reflexivity | reflexivity | lia]. }
  assert (Hreply : respond two_rate_limits (length (calls w) + 2) "hello" = Reply "hi")
    by reflexivity.
  exists c, state. split; [done|].
  exact (sweep_after_exchange two_rate_limits "hello" w c state "hi" 2 (12 * 3600)
           Hc Hst Hrd Hj Htr Hreply).
Defined.

(** The default settings: at most three calls and six seconds of sleep. *)
Lemma send_message_bounds_witness :
  let w := bootstrapped two_rate_limits in
  let w' := snd (send_message two_rate_limits "hello" w) in
  exists c state (n : nat),
    (chat w = Some c /\ current_state w = Some state /\
     0 <= retry_delay_seconds (config w)) /\
    Z.of_nat n <= 3 /\
    calls w' = calls w ++ replicate n (handle c, "hello") /\
    length (sleeps w') = (length (sleeps w) + (n - 1))%nat /\
    clock w <= clock w' <= clock w + 6.
Proof.
  intros w w'.
  destruct (chat w) as [c|] eqn:Hc; [|discriminate Hc].
  destruct (current_state w) as [state|] eqn:Hst; [|discriminate Hst].
  assert (Hrd : 0 <= retry_delay_seconds (config w)) by (vm_compute; discriminate).
  destruct (send_message_bounds two_rate_limits "hello" w c state Hc Hst Hrd)
    as (n & H).
  exists c, state, n. split; [done|]. exact H.
Defined.

(** ** Starting, routing and dispatch *)

Section Dispatch.

Variable P : Provider.

(** X13.  A prompt name that has no file, or whose file is the empty
    dictionary, starts exactly the conversation that ["default"] starts:
    same result, same state, same calls.  The session it creates is
    recorded under the name ["default"], not under the name asked for. *)
Theorem unknown_prompt_is_default name w :
  prompt_truthy (load_prompt name w) = false ->
  start_new_conversation P name w = start_new_conversation P "default" w /\
  (current_state w = None ->
   forall state,
     current_state (snd (start_new_conversation P name w)) = Some state ->
     prompt_name state = "default").
Proof.
  intros Hnot. split.
  - unfold start_new_conversation. rewrite Hnot.
    by destruct (prompt_truthy (load_prompt "default" w)).
  - intros Hempty state. unfold start_new_conversation. rewrite Hnot.
    destruct (load_prompt "default" w) as [pc|]; simpl; [|by rewrite Hempty].
    unfold create_chat.
    destruct (chats_create P (handles w) _); [|simpl; by rewrite Hempty].
    unfold chat_send_message. simpl.
    destruct (respond P _ _); simpl; by intros [= <-].
Qed.

(** X14.  When the provider refuses to create a handle, a send to an Empty
    daemon is answered with ["Error: Failed to create chat"], whatever its
    content: no provider call is made, no session state is installed and
    nothing is written to disk. *)
Theorem send_without_handle_stays_empty content w :
  current_state w = None ->
  is_Some (load_prompt "default" w) ->
  (forall model, chats_create P (handles w) model = false) ->
  let w' := snd (route_send P content w) in
  fst (route_send P content w) = Ret "Error: Failed to create chat" /\
  current_state w' = None /\
  chat w' = chat w /\
  calls w' = calls w /\
  load_current w' = load_current w.
Proof.
  intros Hnone [pd Hdef] Hcreate.
  assert (Hstart : forall name,
    start_new_conversation P name w =
      (Ret "Error: Failed to create chat", set_handles (S (handles w)) w)).
  { intros name. unfold start_new_conversation.
    assert (Hpc : exists pc,
      (if prompt_truthy (load_prompt name w)
       then load_prompt
              (if prompt_truthy (load_prompt name w) then name else "default") w
       else load_prompt "default" w) = Some pc).
    { destruct (load_prompt name w) as [pc|] eqn:Hp.
      - destruct (prompt_truthy (Some pc)); [rewrite Hp|]; eauto.
      - simpl. eauto. }
    destruct Hpc as [pc ->]. simpl. unfold create_chat. by rewrite Hcreate. }
  unfold route_send. rewrite Hnone.
  destruct (bool_decide _).
  - by rewrite Hstart.
  - unfold bind, ret. by rewrite Hstart.
Qed.

(** X15.  The first send of a content that names no profile, to an Empty
    daemon whose bootstrap reply does not start with ["Error:"]: the
    default profile is bootstrapped, then the content is sent, and the
    reply to the content is what is returned.  Two provider calls are
    made on the new handle, and the session holds the four messages in
    order. *)
Theorem first_send_bootstraps_then_sends content w pc ready reply :
  current_state w = None ->
  lower (strip content) ∉ map lower (list_prompts w) ->
  load_prompt "default" w = Some pc ->
  let model := default (default_model (config w)) (p_model pc) in
  let first := default "" (p_first_message pc) in
  chats_create P (handles w) model = true ->
  respond P (length (calls w)) first = Reply ready ->
  startswith ready "Error:" = false ->
  1 <= max_retries (config w) ->
  respond P (S (length (calls w))) content = Reply reply ->
  exists w',
    route_send P content w = (Ret reply, w') /\
    calls w' = calls w ++ [(handles w, first); (handles w, content)] /\
    (messages <$> current_state w') =
      Some [mkMessage "user" first (clock w); mkMessage "model" ready (clock w);
            mkMessage "user" content (clock w); mkMessage "model" reply (clock w)] /\
    (prompt_name <$> current_state w') = Some "default" /\
    load_current w' = current_state w'.
Proof.
  intros Hnone Hnot Hdef model first Hcreate Hready Hprefix Hmr Hreply.
  assert (Hres : resolve_profile "default" w = ("default", Some pc)).
  { unfold resolve_profile. rewrite Hdef. by destruct (prompt_truthy (Some pc)). }
  destruct (start_new_conversation_created P "default" w "default" pc Hres Hcreate)
    as (w1 & Hrun & Hcalls & _ & Hchat & Hst & Hfile).
  fold model first in Hrun, Hcalls, Hst, Hfile, Hchat.
  rewrite Hready in Hrun, Hst, Hfile. simpl in Hrun.
  rewrite route_send_default, Hrun, Hprefix by done.
  pose proof (start_new_conversation_frame P "default" w) as Hframe.
  rewrite Hrun in Hframe. simpl in Hframe.
  assert (Hlen : length (calls w1) = S (length (calls w))).
  { rewrite Hcalls, length_app. simpl. lia. }
  assert (Hclock : clock w1 = clock w).
  { pose proof Hrun as Hrun'. unfold start_new_conversation in Hrun'.
    revert Hrun'. unfold resolve_profile in Hres.
    destruct (prompt_truthy (load_prompt "default" w));
      rewrite Hdef; simpl; unfold create_chat; fold model; rewrite Hcreate;
      unfold chat_send_message; simpl; fold first; rewrite Hready;
      by intros [= <-]. }
  unfold send_message. rewrite Hchat, Hst.
  rewrite (sf_config _ _ Hframe). unfold range.
  destruct (Z.to_nat (max_retries (config w))) as [|m] eqn:Hm; [lia|].
  simpl seq. simpl map. cbn [send_attempts].
  rewrite (chat_send_message_active P _ content w1 Hchat), Hlen, Hreply.
  eexists. split; [reflexivity|].
  unfold record_exchange, current_save, current_add_message. simpl.
  rewrite Hst. simpl. rewrite Hcalls, Hclock, <- app_assoc. done.
Qed.


Lemma send_attempts_no_exit content mr rd attempts : forall w code,
  fst (send_attempts P content mr rd attempts w) <> Exit code.
Proof.
  induction attempts as [|attempt rest IH]; intros w code; [done|].
  simpl.
  assert (Hretry : forall delay w1,
    fst ((sleep delay ;;; send_attempts P content mr rd rest) w1) <> Exit code).
  { intros delay w1. unfold bind, sleep.
    destruct (delay <? 0); [done | apply IH]. }
  destruct (chat_send_message P content w) as [[t|e|e|e|e] w1]; simpl; try done;
    (destruct (attempt <? mr - 1); [apply Hretry | done]).
Qed.

Lemma route_send_no_exit content w code :
  fst (route_send P content w) <> Exit code.
Proof.
  assert (Hsend : forall w1, fst (send_message P content w1) <> Exit code).
  { intros w1. unfold send_message.
    destruct (chat w1), (current_state w1); try done.
    apply send_attempts_no_exit. }
  assert (Hstart : forall name, fst (start_new_conversation P name w) <> Exit code).
  { intros name. unfold start_new_conversation, with_prompt.
    destruct (if prompt_truthy (load_prompt name w) then _ else _) as [pc|];
      [|done].
    destruct (create_chat P _ _ _ w) as [[] w1]; [|done].
    match goal with
    | |- context [chat_send_message P ?text ?w2] =>
        by destruct (chat_send_message P text w2) as [[] w3]
    end. }
  unfold route_send.
  destruct (current_state w); [apply Hsend|].
  destruct (bool_decide _); [apply Hstart|].
  unfold bind, ret. specialize (Hstart "default").
  destruct (start_new_conversation P "default" w) as [[result|e|c] w1];
    simpl in *; try done.
  destruct (negb _); [apply Hsend | done].
Qed.

(** X18.  A forced reset is idempotent, it always leaves the daemon Empty
    (no session state, no handle), and on a daemon that holds no session
    it touches nothing on disk. *)
Theorem force_new_idempotent w :
  force_new (force_new w) = force_new w /\
  current_state (force_new w) = None /\
  chat (force_new w) = None /\
  (current_state w = None ->
   load_current (force_new w) = load_current w /\
   history_dir (force_new w) = history_dir w).
Proof.
  unfold force_new. simpl. repeat split;
    match goal with H : current_state w = None |- _ => by rewrite H end.
Qed.

(** X19.  After a forced reset of a daemon that holds a session, the
    status is the one of no conversation, and the persisted record, if
    there was one, is on file as an inactive archive of the current
    second. *)
Theorem force_new_then_status w :
  is_Some (current_state w) ->
  let w' := force_new w in
  status_data w' =
    <["active" := VBool false]>
      (<["message" := VStr "No active conversation"]> ∅) /\
  (forall state, load_current w = Some state ->
     load_history (clock w) w' = Some (mark_inactive state)).
Proof.
  intros [st Hst]. unfold force_new, status_data, get_status. rewrite Hst.
  simpl. unfold archive_current, load_current, load_history.
  destruct (current_state_file w) as [f|] eqn:Hf; simpl.
  - split; [done|]. intros state [= <-]. by rewrite lookup_insert_eq.
  - rewrite Hf. split; [done|]. by intros state.
Qed.

(** X20.  The daemon never deletes an archive: after any operation, every
    archive that was on file is still on file. *)
Theorem archives_are_kept o w filename :
  is_Some (load_history filename w) ->
  is_Some (load_history filename (run_op P o w)).
Proof.
  unfold load_history. intros Hin.
  assert (Harchive : forall w0,
    is_Some (history_dir w0 !! filename) ->
    is_Some (history_dir (snd (archive_current w0)) !! filename)).
  { intros w0 H0. unfold archive_current.
    destruct (load_current w0); simpl; [|done].
    destruct (decide (clock w0 = filename)) as [->|Hne].
    - rewrite lookup_insert_eq. eauto.
    - by rewrite lookup_insert_ne. }
  destruct o as [name|content|request| |dt]; simpl.
  - by rewrite (sf_history _ _ (start_new_conversation_frame P name w)).
  - by rewrite (sf_history _ _ (send_message_frame P content w)).
  - unfold handle_client.
    destruct (action_is request "send").
    { pose proof (route_send_frame P (default "" (req_content request)) w) as [].
      destruct (route_send P _ w) as [[result|e|c] w1]; simpl in *; congruence. }
    destruct (action_is request "new").
    { unfold force_new. simpl. destruct (current_state w); [|done].
      by apply Harchive. }
    destruct (action_is request "status"); [done|].
    by destruct (action_is request "ping").
  - unfold check_timeout. destruct (current_state w); [|done].
    destruct (_ <? _); [|done].
    unfold shutdown. simpl.
    specialize (Harchive w Hin).
    destruct (socket_open (snd (archive_current w))); simpl;
      by destruct (socket_path_exists (snd (archive_current w))).
  - done.
Qed.

End Dispatch.

(** A first run asked for a profile that does not exist. *)
Lemma unknown_prompt_is_default_witness :
  prompt_truthy (load_prompt "coder" (first_run 0)) = false /\
  start_new_conversation (scripted []) "coder" (first_run 0) =
    start_new_conversation (scripted []) "default" (first_run 0) /\
  (current_state (first_run 0) = None ->
   forall state,
     current_state (snd (start_new_conversation (scripted []) "coder" (first_run 0))) =
       Some state ->
     prompt_name state = "default").
Proof.
  assert (H : prompt_truthy (load_prompt "coder" (first_run 0)) = false)
    by reflexivity.
  split; [exact H|].
  exact (unknown_prompt_is_default (scripted []) "coder" (first_run 0) H).
Defined.

(** A provider that never creates a handle. *)
Lemma send_without_handle_stays_empty_witness :
  let P0 := {| chats_create := fun _ _ => false; respond := fun _ _ => Reply "ok" |} in
  let w := first_run 0 in
  let w' := snd (route_send P0 "hello" w) in
  (current_state w = None /\ is_Some (load_prompt "default" w) /\
   (forall model, chats_create P0 (handles w) model = false)) /\
  fst (route_send P0 "hello" w) = Ret "Error: Failed to create chat" /\
  current_state w' = None /\
  chat w' = chat w /\
  calls w' = calls w /\
  load_current w' = load_current w.
Proof.
  intros P0 w w'.
  assert (H1 : current_state w = None) by reflexivity.
  assert (H2 : is_Some (load_prompt "default" w))
    by (vm_compute; eexists; reflexivity).
  assert (H3 : forall model, chats_create P0 (handles w) model = false)
    by (intros; reflexivity).
  split; [done|].
  exact (send_without_handle_stays_empty P0 "hello" w H1 H2 H3).
Defined.

(** A first run that receives ["hello"]. *)
Lemma first_send_bootstraps_then_sends_witness :
  let P0 := scripted [Reply "Ready."; Reply "hi"] in
  let w := first_run 0 in
  let first := default "" (p_first_message DEFAULT_PROMPT) in
  (current_state w = None /\
   (lower (strip "hello") ∉ map lower (list_prompts w)) /\
   load_prompt "default" w = Some DEFAULT_PROMPT /\
   chats_create P0 (handles w) "gemini-2.5-flash" = true /\
   respond P0 (length (calls w)) first = Reply "Ready." /\
   startswith "Ready." "Error:" = false /\
   1 <= max_retries (config w) /\
   respond P0 (S (length (calls w))) "hello" = Reply "hi") /\
  exists w',
    route_send P0 "hello" w = (Ret "hi", w') /\
    calls w' = calls w ++ [(handles w, first); (handles w, "hello")] /\
    (messages <$> current_state w') =
      Some [mkMessage "user" first (clock w); mkMessage "model" "Ready." (clock w);
            mkMessage "user" "hello" (clock w); mkMessage "model" "hi" (clock w)] /\
    (prompt_name <$> current_state w') = Some "default" /\
    load_current w' = current_state w'.
Proof.
  intros P0 w first.
  assert (H1 : current_state w = None) by reflexivity.
  assert (H2 : lower (strip "hello") ∉ map lower (list_prompts w)).
  { refine (bool_decide_eq_false_1 _ _). by vm_compute. }
  assert (H3 : load_prompt "default" w = Some DEFAULT_PROMPT) by reflexivity.
  assert (H4 : chats_create P0 (handles w) "gemini-2.5-flash" = true) by reflexivity.
  assert (H5 : respond P0 (length (calls w)) first = Reply "Ready.") by reflexivity.
  assert (H6 : startswith "Ready." "Error:" = false) by reflexivity.
  assert (H7 : 1 <= max_retries (config w)) by (vm_compute; discriminate).
  assert (H8 : respond P0 (S (length (calls w))) "hello" = Reply "hi") by reflexivity.
  split; [done|].
  exact (first_send_bootstraps_then_sends P0 "hello" w DEFAULT_PROMPT
           "Ready." "hi" H1 H2 H3 H4 H5 H6 H7 H8).
Defined.

(** The reset of [idle_daemon]. *)
Lemma force_new_then_status_witness :
  is_Some (current_state idle_daemon) /\
  let w' := force_new idle_daemon in
  status_data w' =
    <["active" := VBool false]>
      (<["message" := VStr "No active conversation"]> ∅) /\
  (forall state, load_current idle_daemon = Some state ->
     load_history (clock idle_daemon) w' = Some (mark_inactive state)).
Proof.
  assert (H : is_Some (current_state idle_daemon))
    by (vm_compute; eexists; reflexivity).
  split; [exact H|]. exact (force_new_then_status idle_daemon H).
Defined.

(** An archive of [two_archived] after a forced reset. *)
Lemma archives_are_kept_witness :
  is_Some (load_history 10 two_archived) /\
  is_Some (load_history 10
             (run_op (scripted []) (OpRequest (mkRequest (Some "new") None))
                two_archived)).
Proof.
  assert (H : is_Some (load_history 10 two_archived))
    by (vm_compute; eexists; reflexivity).
  split; [exact H|].
  exact (archives_are_kept (scripted [])
           (OpRequest (mkRequest (Some "new") None)) two_archived 10 H).
Defined.

(** ** Startup *)

Section Startup.

Variable P : Provider.

(** X21.  A persisted record that has expired is archived at startup
    without the provider being contacted: the result is [False], the
    record leaves [current.json] for an inactive archive of the current
    second, no handle is created, no call is made and the daemon stays
    Empty. *)
Theorem resume_archives_expired w state :
  current_state w = None ->
  load_current w = Some state ->
  is_expired (timeout_hours w) (clock w) state = true ->
  exists w',
    check_and_resume_conversation P w = (Ret false, w') /\
    load_current w' = None /\
    load_history (clock w) w' = Some (mark_inactive state) /\
    current_state w' = None /\
    chat w' = chat w /\
    handles w' = handles w /\
    calls w' = calls w.
Proof.
  intros Hnone Hload Hexp. unfold check_and_resume_conversation.
  rewrite Hload, Hexp. eexists. split; [done|].
  unfold archive_current. rewrite Hload. simpl.
  unfold load_history. simpl. by rewrite lookup_insert_eq.
Qed.

(** X22.  A successful resume restarts the daemon's idle clock at the
    instant of the restart and leaves the session's own [last_activity] as
    it was loaded: the sweep becomes due only [timeout_hours] hours after
    the restart, however long ago the session was last active. *)
Theorem resume_restarts_idle_clock w state w' dt :
  load_current w = Some state ->
  check_and_resume_conversation P w = (Ret true, w') ->
  current_state w' = Some state /\
  daemon_last_activity w' = clock w /\
  clock w' = clock w /\
  (sweep_due (wait dt w') <-> 3600 * timeout_hours w < dt).
Proof.
  intros Hload. unfold check_and_resume_conversation. rewrite Hload.
  destruct (is_expired _ _ state); [done|].
  destruct (if prompt_truthy (load_prompt (prompt_name state) w) then _ else _)
    as [pc|]; [|done].
  simpl with_prompt. unfold create_chat.
  destruct (chats_create P (handles w) (model state)); [|done].
  set (c := {| handle := handles w |}). set (w1 := set_chat (Some c) _).
  destruct (replay_calls P (messages state) w1 c eq_refl)
    as (b & n & Hrun & _). rewrite Hrun.
  destruct b; [|done]. intros [= <-]. simpl.
  split; [done|]. split; [done|]. split; [done|].
  unfold sweep_due, wait. simpl. split.
  - intros [_ H]. lia.
  - intros H. split; [eauto | lia].
Qed.

End Startup.

(** A record last active thirteen hours before the restart. *)
Lemma resume_archives_expired_witness :
  let w := new_daemon (40 + 13 * 3600) {[ "default" := DEFAULT_PROMPT ]}
             DEFAULT_CONFIG (Some saved_session) ∅ in
  (current_state w = None /\ load_current w = Some saved_session /\
   is_expired (timeout_hours w) (clock w) saved_session = true) /\
  exists w',
    check_and_resume_conversation (scripted []) w = (Ret false, w') /\
    load_current w' = None /\
    load_history (clock w) w' = Some (mark_inactive saved_session) /\
    current_state w' = None /\
    chat w' = chat w /\
    handles w' = handles w /\
    calls w' = calls w.
Proof.
  intros w.
  assert (H1 : current_state w = None) by reflexivity.
  assert (H2 : load_current w = Some saved_session) by reflexivity.
  assert (H3 : is_expired (timeout_hours w) (clock w) saved_session = true)
    by reflexivity.
  split; [done|].
  exact (resume_archives_expired (scripted []) w saved_session H1 H2 H3).
Defined.

(** The restart of [restarted], one hour after the session was last
    active, and the sweep twelve hours later. *)
Lemma resume_restarts_idle_clock_witness :
  exists w',
    (load_current restarted = Some saved_session /\
     check_and_resume_conversation (scripted []) restarted = (Ret true, w')) /\
    current_state w' = Some saved_session /\
    daemon_last_activity w' = clock restarted /\
    clock w' = clock restarted /\
    (sweep_due (wait (12 * 3600) w') <->
     3600 * timeout_hours restarted < 12 * 3600).
Proof.
  assert (H1 : load_current restarted = Some saved_session) by reflexivity.
  assert (H2 : exists w',
    check_and_resume_conversation (scripted []) restarted = (Ret true, w'))
    by (vm_compute; eexists; reflexivity).
  destruct H2 as [w' H2]. exists w'. split; [exact (conj H1 H2)|].
  exact (resume_restarts_idle_clock (scripted []) restarted saved_session w'
           (12 * 3600) H1 H2).
Defined.

(** ** The client and the daemon together *)

Section ClientAndDaemon.

Variable P : Provider.

(** X23.  A client send to a running daemon, with a configured key, a
    clipboard that is not empty, and an exchange that passes request and
    reply whole within the client's 30 seconds: whatever text the daemon's
    routing returns is copied to the clipboard and the exit code is 0, also
    when that text is a failure text of the provider, because the daemon
    answers it with status ["success"].  Over such an exchange the exit
    code is 1, and the clipboard gets the text prefixed with ["Error: "],
    only when an exception escaped the routing. *)
Theorem client_send_copies_result cl w r w' :
  is_configured cl = true ->
  is_daemon_running w = true ->
  clipboard cl <> "" ->
  link cl = Whole ->
  route_send P (clipboard cl) w = (r, w') ->
  clock w' - clock w < 30 ->
  match r with
  | Ret text => handle_send P cl w = (Ret 0, set_clipboard text cl, w')
  | Raise e => handle_send P cl w = (Ret 1, set_clipboard ("Error: " +:+ e) cl, w')
  | Exit _ => False
  end.
Proof.
  intros Hcfg Hrun Hclip Hlink Hroute Htime.
  unfold handle_send, start_daemon. rewrite Hcfg, Hrun. simpl.
  apply String.eqb_neq in Hclip. rewrite Hclip.
  unfold send_to_daemon, handle_client. rewrite Hlink. simpl. rewrite Hroute.
  pose proof (route_send_no_exit P (clipboard cl) w) as Hne.
  rewrite Hroute in Hne. simpl in Hne.
  apply Z.leb_gt in Htime.
  destruct r as [text|e|c]; [by rewrite Htime | by rewrite Htime | by destruct (Hne c)].
Qed.

(** X24.  The client's [--new].  With no socket file it writes
    ["No active conversation to reset"], contacts nobody and exits 0.  With
    a daemon that answers, the daemon ends in the state of a forced reset,
    the confirmation is written and the exit code is 0.  With a socket
    file that no daemon listens on, the connection is refused: the
    clipboard gets ["Error: Daemon not responding"] and the exit code is
    1. *)
Theorem client_new_resets cl w :
  (is_daemon_running w = false ->
   handle_new P cl w =
     (Ret 0, set_clipboard "No active conversation to reset" cl, w)) /\
  (is_daemon_running w = true -> link cl = Whole ->
   handle_new P cl w =
     (Ret 0,
      set_clipboard "Conversation reset. Next message will start fresh." cl,
      force_new w)) /\
  (is_daemon_running w = true -> link cl = Refused ->
   handle_new P cl w =
     (Ret 1, set_clipboard "Error: Daemon not responding" cl, w)).
Proof.
  unfold handle_new, send_to_daemon.
  split; [|split]; intros Hrun; rewrite Hrun; [done | |]; intros ->; [|done].
  simpl.
  assert (Hclock : clock match current_state w with
                         | Some _ => snd (archive_current w)
                         | None => w
                         end = clock w).
  { unfold archive_current, load_current.
    by destruct (current_state w), (current_state_file w). }
  rewrite Hclock, Z.sub_diag. done.
Qed.

End ClientAndDaemon.

(** A rate-limited send, as the client sees it: exit code 0 and the
    failure text on the clipboard. *)
Lemma client_send_copies_result_witness :
  let P0 := rate_limited_after_bootstrap in
  let cl := mkClient "key" true "hello" Whole true in
  let w := serving (bootstrapped P0) in
  let w' := snd (route_send P0 (clipboard cl) w) in
  (is_configured cl = true /\ is_daemon_running w = true /\
   clipboard cl <> "" /\ link cl = Whole /\
   route_send P0 (clipboard cl) w =
     (Ret "Error: Rate limit exceeded after retries", w') /\
   clock w' - clock w < 30) /\
  handle_send P0 cl w =
    (Ret 0, set_clipboard "Error: Rate limit exceeded after retries" cl, w').
Proof.
  intros P0 cl w w'.
  assert (H1 : is_configured cl = true) by reflexivity.
  assert (H2 : is_daemon_running w = true) by reflexivity.
  assert (H3 : clipboard cl <> "") by discriminate.
  assert (H4 : route_send P0 (clipboard cl) w =
                 (Ret "Error: Rate limit exceeded after retries", w'))
    by (vm_compute; reflexivity).
  assert (H5 : clock w' - clock w < 30) by (vm_compute; reflexivity).
  split; [done|].
  exact (client_send_copies_result P0 cl w _ w' H1 H2 H3 eq_refl H4 H5).
Defined.

(** ** Configuration and reset *)


(** X26.  The client's [--reset] destroys nothing unless the answer,
    trimmed and lowered, is ["yes"]: any other answer leaves the disk as
    it is and the exit code is 0; a confirmed reset leaves no current
    record and no archive. *)
Theorem handle_reset_needs_yes confirm w :
  (lower (strip confirm) <> "yes" -> handle_reset confirm w = (0, w)) /\
  (lower (strip confirm) = "yes" ->
   load_current (snd (handle_reset confirm w)) = None /\
   list_history (snd (handle_reset confirm w)) = []).
Proof.
  unfold handle_reset.
  destruct (String.eqb_spec (lower (strip confirm)) "yes") as [Hyes|Hno]; simpl.
  - split; [done|]. intros _.
    unfold clear_all.
    set (w1 := match current_state_file w with
               | Some _ => set_current_state_file None w
               | None => w
               end).
    assert (Hfile : current_state_file w1 = None).
    { subst w1. by destruct (current_state_file w) eqn:H. }
    cbn [fst snd].
    destruct (unlink_all_other (list_history w1) w1) as (Hf & _ & _).
    split; [unfold load_current; congruence|].
    apply list_history_empty, map_eq. intros k.
    rewrite unlink_all_lookup, lookup_empty.
    destruct (decide (k ∈ list_history w1)) as [|Hnot]; [done|].
    destruct (history_dir w1 !! k) as [st|] eqn:Hk; [|done].
    destruct Hnot. apply elem_of_list_history. eauto.
  - split; [done|]. by intros ?.
Qed.
